(** * Streaming token relay of the serverless LLM sample

    Shallow embedding of the three Python Lambda handlers that make up the
    relay logic of the repository:

    - [Stream]     : src/lambda_functions/websocket_api/stream.py
    - [Processing] : src/lambda_functions/appsync/processing.py
    - [Request]    : src/lambda_functions/appsync/request.py

    Python values that travel through the handlers are JSON values; Python
    exceptions are an explicit result, threaded through a small state and
    exception monad.  The services the handlers talk to (Bedrock, API Gateway,
    AppSync, SQS, the clock, uuid4, os.environ) are fields of a [world]
    record, and every call made to them is recorded in the handler state. *)

From Stdlib Require Import List String ZArith Lia Bool Arith.
Import ListNotations.

Open Scope string_scope.
Open Scope Z_scope.

Set Warnings "-register-all".

(** ** Python values *)

(** What [json.loads] produces and [json.dumps] consumes.  Numbers are the
    integers the handlers count with. *)
Inductive json : Type :=
| JNull
| JBool (b : bool)
| JNum (n : Z)
| JStr (s : string)
| JArr (items : list json)
| JObj (fields : list (string * json)).

(** Exceptions, by the classes the handlers distinguish.  [ClientError]
    carries [e.response["Error"]["Code"]] and the text of [str(e)]. *)
Inductive exn : Type :=
| JSONDecodeError (msg : string)
| ClientError (code : string) (msg : string)
| KeyError (key : string)
| TypeError (msg : string)
| AttributeError (msg : string)
| RecursionError (msg : string)
| OtherException (msg : string).

(** [str(e)] *)
Definition str (e : exn) : string :=
  match e with
  | JSONDecodeError msg => msg
  | ClientError _ msg => msg
  | KeyError key => "'" ++ key ++ "'"
  | TypeError msg => msg
  | AttributeError msg => msg
  | RecursionError msg => msg
  | OtherException msg => msg
  end.

(** A computation either returns or raises. *)
Inductive res (A : Type) : Type :=
| Ok (a : A)
| Raise (e : exn).
Arguments Ok {A} a.
Arguments Raise {A} e.

Definition res_bind {A B} (r : res A) (k : A -> res B) : res B :=
  match r with
  | Ok a => k a
  | Raise e => Raise e
  end.

(** A JSON text is represented by what [json.loads] does on it: the handlers
    use such a text (a request body, the bytes of a Bedrock chunk) only
    through [json.loads].  It returns a value, or raises [JSONDecodeError]
    on a text that is not JSON, or, on a text that is nested too deep for
    the decoder, raises [RecursionError], which is not a
    [JSONDecodeError]. *)
Inductive json_text : Type :=
| Parses (v : json)
| Malformed (reason : string)
| TooDeep (msg : string).

Definition json_loads (t : json_text) : res json :=
  match t with
  | Parses v => Ok v
  | Malformed reason => Raise (JSONDecodeError reason)
  | TooDeep msg => Raise (RecursionError msg)
  end.

Fixpoint lookup (key : string) (fields : list (string * json)) : option json :=
  match fields with
  | [] => None
  | (k, v) :: rest => if String.eqb key k then Some v else lookup key rest
  end.

(** [d.get(key, default)]: only a dict has [get]. *)
Definition py_get (d : json) (key : string) (default : json) : res json :=
  match d with
  | JObj fields =>
      match lookup key fields with
      | Some v => Ok v
      | None => Ok default
      end
  | _ => Raise (AttributeError "object has no attribute 'get'")
  end.

(** [d[key]] for a string key. *)
Definition py_getitem (d : json) (key : string) : res json :=
  match d with
  | JObj fields =>
      match lookup key fields with
      | Some v => Ok v
      | None => Raise (KeyError key)
      end
  | _ => Raise (TypeError "indices must be integers or object is not subscriptable")
  end.

(** [v[:100]], evaluated inside the log lines that preview the prompt: a
    string or a list can be sliced, anything else raises. *)
Definition py_slice (v : json) : res unit :=
  match v with
  | JStr _ | JArr _ => Ok tt
  | _ => Raise (TypeError "object is not subscriptable")
  end.

(** Truth value of [if v:]. *)
Definition truthy (v : json) : bool :=
  match v with
  | JNull => false
  | JBool b => b
  | JNum n => negb (n =? 0)
  | JStr s => negb (String.eqb s EmptyString)
  | JArr items => match items with [] => false | _ => true end
  | JObj fields => match fields with [] => false | _ => true end
  end.

(** [v == "literal"] *)
Definition eq_str (v : json) (literal : string) : bool :=
  match v with
  | JStr s => String.eqb s literal
  | _ => false
  end.

(** ** The Bedrock response stream *)

(** One item of [response["body"]]: a dict that has a ["chunk"] key, whose
    bytes are a JSON text, or a dict that has none. *)
Inductive event : Type :=
| EvChunk (bytes : json_text)
| EvOther.

(** The lazy sequence [response["body"]]: the events it yields and how the
    iteration ends, normally ([None]) or by raising. *)
Record response_stream : Type := {
  events : list event;
  ending : option exn
}.

(** The filter both relay loops apply to an event before they count it
    (stream.py lines 137-144, processing.py lines 207-214): [Ok (Some text)]
    when the event carries text to forward, [Ok None] when it is skipped. *)
Definition event_text (ev : event) : res (option json) :=
  match ev with
  | EvOther => Ok None
  | EvChunk bytes =>
      res_bind (json_loads bytes) (fun chunk_data =>
      res_bind (py_get chunk_data "type" JNull) (fun ty =>
      if eq_str ty "content_block_delta" then
        res_bind (py_get chunk_data "delta" (JObj [])) (fun delta =>
        res_bind (py_get delta "text" (JStr EmptyString)) (fun text =>
        if truthy text then Ok (Some text) else Ok None))
      else Ok None))
  end.

(** ** State and exception monad *)

Section Monad.
Context {S : Type}.

Definition M (A : Type) : Type := S -> S * res A.

Definition ret {A} (a : A) : M A := fun st => (st, Ok a).

Definition raise {A} (e : exn) : M A := fun st => (st, Raise e).

Definition bind {A B} (m : M A) (k : A -> M B) : M B :=
  fun st =>
    match m st with
    | (st', Ok a) => k a st'
    | (st', Raise e) => (st', Raise e)
    end.

(** [try: m  except Exception as e: handler e] *)
Definition try_except {A} (m : M A) (handler : exn -> M A) : M A :=
  fun st =>
    match m st with
    | (st', Ok a) => (st', Ok a)
    | (st', Raise e) => handler e st'
    end.

Definition lift {A} (r : res A) : M A := fun st => (st, r).

Definition get : M S := fun st => (st, Ok st).

Definition modify (f : S -> S) : M unit := fun st => (f st, Ok tt).
End Monad.

Declare Scope py_scope.
Delimit Scope py_scope with py.
Notation "x <- m ;; k" := (bind m (fun x => k))
  (at level 100, m at next level, right associativity) : py_scope.
Notation "m ;;; k" := (bind m (fun _ => k))
  (at level 100, right associativity) : py_scope.
Open Scope py_scope.

(** The default prompt of both entry points. *)
Definition default_prompt : string := "Hello, how are you?".

(** ** websocket_api/stream.py *)

Module Stream.

(** One call of [post_to_connection]: what was posted and how the call
    ended ([None]: it returned). *)
Record attempt : Type := {
  ConnectionId : string;
  Data : json;
  raised : option exn
}.

(** The [print] lines that report how a run went. *)
Inductive log_entry : Type :=
| InvalidJson (reason : string)
| ConnectionClosed (tokens_sent : Z)
| StreamingCompleted (token_count : Z)
| StreamingError (error_message : string)
| CouldNotSendError.

Record state : Type := {
  invocations : list (json * json);
  sends : list attempt;
  log : list log_entry
}.

Definition initial : state :=
  {| invocations := []; sends := []; log := [] |}.

(** The services of one invocation.  [post_to_connection n] is how the
    n-th call (from 0) to the connection ends. *)
Record world : Type := {
  invoke_model_with_response_stream :
    json -> json -> res response_stream;
  post_to_connection : nat -> option exn
}.

Record request_context : Type := {
  connectionId : string;
  domainName : string;
  stage : string;
  principalId : option string
}.

(** [body = None]: the event has no ["body"] key. *)
Record ws_event : Type := {
  requestContext : request_context;
  body : option json_text
}.

Record lambda_context : Type := { aws_request_id : string }.

Definition print (entry : log_entry) : M (S := state) unit :=
  modify (fun st =>
    {| invocations := invocations st;
       sends := sends st;
       log := log st ++ [entry] |}).

Definition post (w : world) (connection_id : string) (data : json)
  : M (S := state) (option exn) :=
  fun st =>
    let r := post_to_connection w (List.length (sends st)) in
    ({| invocations := invocations st;
        sends := sends st ++
                 [{| ConnectionId := connection_id; Data := data; raised := r |}];
        log := log st |}, Ok r).

Definition invoke (w : world) (max_tokens prompt : json)
  : M (S := state) response_stream :=
  fun st =>
    ({| invocations := invocations st ++ [(prompt, max_tokens)];
        sends := sends st;
        log := log st |},
     invoke_model_with_response_stream w max_tokens prompt).

Definition token_message (text : json) (token_count : Z) : json :=
  JObj [("type", JStr "token"); ("token", text); ("sequence", JNum token_count)].

Definition complete_message (token_count : Z) (request_id : string) : json :=
  JObj [("type", JStr "complete"); ("total_tokens", JNum token_count);
        ("timestamp", JStr request_id)].

Definition error_message (message : string) (request_id : string) : json :=
  JObj [("type", JStr "error"); ("message", JStr message);
        ("timestamp", JStr request_id)].

(** [for chunk in response["body"]: ...] (lines 136-170); returns
    [token_count] as the loop leaves it, by exhaustion or by [break]. *)
Fixpoint relay_loop (w : world) (connection_id : string)
    (evs : list event) (ending : option exn) (token_count : Z)
  : M (S := state) Z :=
  match evs with
  | [] =>
      match ending with
      | None => ret token_count
      | Some e => raise e
      end
  | chunk :: rest =>
      text <- lift (event_text chunk) ;;
      match text with
      | None => relay_loop w connection_id rest ending token_count
      | Some text =>
          let token_count := token_count + 1 in
          r <- post w connection_id (token_message text token_count) ;;
          match r with
          | None => relay_loop w connection_id rest ending token_count
          | Some (ClientError code msg) =>
              if String.eqb code "GoneException"
              then (print (ConnectionClosed token_count) ;;; ret token_count)
              else raise (ClientError code msg)
          | Some e => raise e
          end
      end
  end.

(** Lines 172-190. *)
Definition send_completion (w : world) (connection_id : string)
    (context : lambda_context) (token_count : Z) : M (S := state) unit :=
  r <- post w connection_id
         (complete_message token_count (aws_request_id context)) ;;
  match r with
  | None => print (StreamingCompleted token_count)
  | Some (ClientError code msg) =>
      if negb (String.eqb code "GoneException")
      then raise (ClientError code msg)
      else ret tt
  | Some e => raise e
  end.

(** Lines 192-211. *)
Definition notify_error (w : world) (connection_id : string)
    (context : lambda_context) (e : exn) : M (S := state) unit :=
  print (StreamingError (str e)) ;;;
  r <- post w connection_id (error_message (str e) (aws_request_id context)) ;;
  match r with
  | None => ret tt
  | Some _ => print CouldNotSendError
  end.

(** The [try] block of lines 112-190. *)
Definition relay (w : world) (connection_id : string)
    (context : lambda_context) (max_tokens prompt : json)
  : M (S := state) unit :=
  response <- invoke w max_tokens prompt ;;
  token_count <- relay_loop w connection_id
                   (events response) (ending response) 0 ;;
  send_completion w connection_id context token_count.

Definition ok_response (context : lambda_context) : json :=
  JObj [("statusCode", JNum 200);
        ("body", JObj [("message", JStr "AI streaming request processed");
                       ("requestId", JStr (aws_request_id context))])].

Definition invalid_json_response : json :=
  JObj [("statusCode", JNum 400);
        ("body", JObj [("error", JStr "Invalid JSON")])].

(** The text [event.get("body", "{}")] *)
Definition event_body (ev : ws_event) : json_text :=
  match body ev with
  | Some text => text
  | None => Parses (JObj [])
  end.

(** Lines 91-97: what the first [try] block reads from the parsed body. *)
Definition read_request (body : json) : res (json * json) :=
  res_bind (py_get body "prompt" (JStr default_prompt)) (fun prompt =>
  res_bind (py_get body "options" (JObj [])) (fun options =>
  res_bind (py_get options "max_tokens" (JNum 1000)) (fun max_tokens =>
  res_bind (py_slice prompt) (fun _ =>
  Ok (prompt, max_tokens))))).

Definition lambda_handler (w : world) (ev : ws_event)
    (context : lambda_context) : M (S := state) json :=
  let connection_id := connectionId (requestContext ev) in
  match json_loads (event_body ev) with
  | Raise (JSONDecodeError reason) =>
      print (InvalidJson reason) ;;; ret invalid_json_response
  | Raise e => raise e
  | Ok body =>
      request <- lift (read_request body) ;;
      let '(prompt, max_tokens) := request in
      try_except
        (relay w connection_id context max_tokens prompt)
        (notify_error w connection_id context) ;;;
      ret (ok_response context)
  end.

End Stream.

(** ** appsync/processing.py *)

Module Processing.

(** One call of [publish_token_to_appsync], with its arguments and the
    boolean it returned. *)
Record publish_call : Type := {
  session_id : json;
  token : json;
  is_complete : bool;
  sequence : Z;
  appsync_url : string;
  region : string;
  returned : bool
}.

(** How the signed HTTP request of one publish ends: with the decoded JSON
    object of the GraphQL reply, or with an exception raised anywhere in the
    body of the function. *)
Inductive http_outcome : Type :=
| HttpResult (result : list (string * json))
| HttpRaises (e : exn).

(** The [print] lines that report how a run or a message went. *)
Inductive log_entry : Type :=
| StreamCompleted (token_count : Z)
| StreamError (error_message : string)
| MessageFailed (message_id : string)
| MessageUnparsable (message_id : string) (reason : string)
| MessageUnexpectedError (message_id : string) (error_message : string).

Record state : Type := {
  invocations : list json;
  publishes : list publish_call;
  log : list log_entry
}.

Definition initial : state :=
  {| invocations := []; publishes := []; log := [] |}.

(** The services of one invocation.  [invoke_model_with_response_stream n]
    answers the n-th model invocation (from 0), [urlopen n] the n-th publish
    request. *)
Record world : Type := {
  environ : string -> option string;
  invoke_model_with_response_stream : nat -> json -> res response_stream;
  urlopen : nat -> http_outcome
}.

Record sqs_record : Type := {
  messageId : string;
  body : json_text
}.

(** [Records = None]: the event has no ["Records"] key. *)
Record sqs_event : Type := { Records : option (list sqs_record) }.

(** The returned dict; each entry of the list is the [itemIdentifier] of one
    [{"itemIdentifier": message_id}]. *)
Record batch_response : Type := { batchItemFailures : list string }.

Definition print (entry : log_entry) : M (S := state) unit :=
  modify (fun st =>
    {| invocations := invocations st;
       publishes := publishes st;
       log := log st ++ [entry] |}).

(** [os.environ[name]] *)
Definition getenv (w : world) (name : string) : res string :=
  match environ w name with
  | Some value => Ok value
  | None => Raise (KeyError name)
  end.

Definition invoke (w : world) (prompt : json) : M (S := state) response_stream :=
  fun st =>
    ({| invocations := invocations st ++ [prompt];
        publishes := publishes st;
        log := log st |},
     invoke_model_with_response_stream w (List.length (invocations st)) prompt).

(** Lines 133-149: [True] only when the request went through and the reply
    has no ["errors"] key. *)
Definition reply_ok (outcome : http_outcome) : bool :=
  match outcome with
  | HttpResult result =>
      match lookup "errors" result with
      | Some _ => false
      | None => true
      end
  | HttpRaises _ => false
  end.

(** Lines 36-149.  The whole body sits in [try ... except Exception], so the
    function returns a boolean whatever happens. *)
Definition publish_token_to_appsync (w : world)
    (session_id token : json) (is_complete : bool) (sequence : Z)
    (appsync_url region : string) : M (S := state) bool :=
  fun st =>
    let success := reply_ok (urlopen w (List.length (publishes st))) in
    ({| invocations := invocations st;
        publishes := publishes st ++
          [{| session_id := session_id; token := token;
              is_complete := is_complete; sequence := sequence;
              appsync_url := appsync_url; region := region;
              returned := success |}];
        log := log st |}, Ok success).

(** [for chunk in response["body"]: ...] (lines 206-230); returns
    [token_count] as the loop leaves it.  The boolean of each publish is
    bound to [success] and not read again. *)
Fixpoint relay_loop (w : world) (session_id : json)
    (appsync_api_url region : string)
    (evs : list event) (ending : option exn) (token_count : Z)
  : M (S := state) Z :=
  match evs with
  | [] =>
      match ending with
      | None => ret token_count
      | Some e => raise e
      end
  | chunk :: rest =>
      text <- lift (event_text chunk) ;;
      match text with
      | None => relay_loop w session_id appsync_api_url region rest ending token_count
      | Some text =>
          let token_count := token_count + 1 in
          success <- publish_token_to_appsync w session_id text false
                       token_count appsync_api_url region ;;
          relay_loop w session_id appsync_api_url region rest ending token_count
      end
  end.

(** Lines 152-263. *)
Definition process_streaming_request (w : world) (message_body : json)
  : M (S := state) bool :=
  prompt <- lift (py_getitem message_body "prompt") ;;
  session_id <- lift (py_getitem message_body "sessionId") ;;
  appsync_api_url <- lift (getenv w "APPSYNC_API_URL") ;;
  region <- lift (getenv w "AWS_REGION") ;;
  lift (py_slice prompt) ;;;
  try_except
    (response <- invoke w prompt ;;
     token_count <- relay_loop w session_id appsync_api_url region
                      (events response) (ending response) 0 ;;
     print (StreamCompleted token_count) ;;;
     publish_token_to_appsync w session_id (JStr EmptyString) true
       (token_count + 1) appsync_api_url region ;;;
     ret true)
    (fun e =>
       let error_message := str e in
       print (StreamError error_message) ;;;
       publish_token_to_appsync w session_id
         (JStr ("Error: " ++ error_message)) true 999
         appsync_api_url region ;;;
       ret false).

(** The body of the [for record in ...] loop (lines 320-342), with the list
    [failed_message_ids] passed in and out. *)
Definition handle_record (w : world) (record : sqs_record)
    (failed_message_ids : list string) : M (S := state) (list string) :=
  let message_id := messageId record in
  try_except
    (message_body <- lift (json_loads (body record)) ;;
     success <- process_streaming_request w message_body ;;
     if negb success
     then (print (MessageFailed message_id) ;;;
           ret (failed_message_ids ++ [message_id])%list)
     else ret failed_message_ids)
    (fun e =>
       match e with
       | JSONDecodeError reason =>
           print (MessageUnparsable message_id reason) ;;;
           ret failed_message_ids
       | _ =>
           print (MessageUnexpectedError message_id (str e)) ;;;
           ret (failed_message_ids ++ [message_id])%list
       end).

Fixpoint handle_records (w : world) (records : list sqs_record)
    (failed_message_ids : list string) : M (S := state) (list string) :=
  match records with
  | [] => ret failed_message_ids
  | record :: rest =>
      failed_message_ids <- handle_record w record failed_message_ids ;;
      handle_records w rest failed_message_ids
  end.

(** [event.get("Records", [])] *)
Definition event_records (ev : sqs_event) : list sqs_record :=
  match Records ev with
  | Some records => records
  | None => []
  end.

(** Lines 266-346. *)
Definition lambda_handler (w : world) (ev : sqs_event)
  : M (S := state) batch_response :=
  failed_message_ids <- handle_records w (event_records ev) [] ;;
  ret {| batchItemFailures := failed_message_ids |}.

End Processing.

(** ** appsync/request.py *)

Module Request.

(** The [print] lines that report how the enqueue went. *)
Inductive log_entry : Type :=
| MessageSent (sqs_message_id : string)
| SendFailed (error_msg : string).

(** [sent] lists the calls of [send_message] as (QueueUrl, MessageBody);
    [clock_reads] counts the calls of [datetime.datetime.utcnow()]. *)
Record state : Type := {
  sent : list (string * json);
  clock_reads : nat;
  log : list log_entry
}.

Definition initial : state :=
  {| sent := []; clock_reads := 0%nat; log := [] |}.

(** The services of one invocation: [uuid4] is [str(uuid.uuid4())],
    [utcnow_isoformat n] the n-th reading of the clock, [send_message] the
    reply of SQS, its ["MessageId"], or the exception it raises. *)
Record world : Type := {
  environ : string -> option string;
  uuid4 : string;
  utcnow_isoformat : nat -> string;
  send_message : string -> json -> res string
}.

Record lambda_context : Type := { aws_request_id : string }.

Definition print (entry : log_entry) : M (S := state) unit :=
  modify (fun st =>
    {| sent := sent st; clock_reads := clock_reads st;
       log := log st ++ [entry] |}).

Definition getenv (w : world) (name : string) : res string :=
  match environ w name with
  | Some value => Ok value
  | None => Raise (KeyError name)
  end.

Definition utcnow (w : world) : M (S := state) string :=
  fun st =>
    ({| sent := sent st; clock_reads := Datatypes.S (clock_reads st);
        log := log st |},
     Ok (utcnow_isoformat w (clock_reads st))).

Definition sqs_send (w : world) (queue_url : string) (message_body : json)
  : M (S := state) string :=
  fun st =>
    ({| sent := sent st ++ [(queue_url, message_body)];
        clock_reads := clock_reads st;
        log := log st |},
     send_message w queue_url message_body).

(** [event.get("arguments", {})] *)
Definition event_arguments (event : list (string * json)) : json :=
  match lookup "arguments" event with
  | Some arguments => arguments
  | None => JObj []
  end.

(** Lines 52-159; [event] is the dict of the AppSync event. *)
Definition lambda_handler (w : world) (event : list (string * json))
    (context : lambda_context) : M (S := state) json :=
  prompt <- lift (py_get (event_arguments event) "prompt" (JStr default_prompt)) ;;
  let session_id := uuid4 w in
  queue_url <- lift (getenv w "STREAMING_QUEUE_URL") ;;
  lift (py_slice prompt) ;;;
  try_except
    (timestamp <- utcnow w ;;
     response <- sqs_send w queue_url
       (JObj [("prompt", prompt);
              ("sessionId", JStr session_id);
              ("requestId", JStr (aws_request_id context));
              ("timestamp", JStr timestamp)]) ;;
     print (MessageSent response) ;;;
     timestamp <- utcnow w ;;
     ret (JObj [("sessionId", JStr session_id);
                ("status", JStr "streaming_started");
                ("message", JStr "AI streaming session initiated. Subscribe to receive real-time tokens.");
                ("timestamp", JStr timestamp)]))
    (fun e =>
       let error_msg := str e in
       print (SendFailed error_msg) ;;;
       timestamp <- utcnow w ;;
       ret (JObj [("sessionId", JStr session_id);
                  ("status", JStr "error");
                  ("error", JStr ("Failed to initiate streaming: " ++ error_msg));
                  ("timestamp", JStr timestamp)])).

End Request.

(** ** Vocabulary of the properties *)

(** The texts a run of events hands to the relay, in order, when no event
    raises; the exception of the first event that does otherwise. *)
Fixpoint fragments_of (evs : list event) : res (list json) :=
  match evs with
  | [] => Ok []
  | ev :: rest =>
      match event_text ev with
      | Raise e => Raise e
      | Ok None => fragments_of rest
      | Ok (Some text) =>
          match fragments_of rest with
          | Ok texts => Ok (text :: texts)
          | Raise e => Raise e
          end
      end
  end.

(** A well-formed Bedrock text delta. *)
Definition text_delta (text : string) : event :=
  EvChunk (Parses (JObj [("type", JStr "content_block_delta");
                         ("delta", JObj [("text", JStr text)])])).

(** A content delta whose text is the empty string. *)
Definition empty_text_chunk (ev : event) : bool :=
  match ev with
  | EvChunk (Parses (JObj fields)) =>
      match lookup "type" fields, lookup "delta" fields with
      | Some ty, Some (JObj delta) =>
          eq_str ty "content_block_delta" &&
          match lookup "text" delta with
          | Some (JStr s) => String.eqb s EmptyString
          | _ => false
          end
      | _, _ => false
      end
  | _ => false
  end.

(** Sequence numbers [from+1, from+2, ...] for [n] fragments. *)
Fixpoint sequence_numbers (from : Z) (n : nat) : list Z :=
  match n with
  | O => []
  | Datatypes.S n' => (from + 1) :: sequence_numbers (from + 1) n'
  end.

(** The token messages the WebSocket relay posts for [texts] when the
    counter stands at [token_count] and every post returns. *)
Fixpoint token_attempts (connection_id : string) (texts : list json)
    (token_count : Z) : list Stream.attempt :=
  match texts with
  | [] => []
  | text :: rest =>
      {| Stream.ConnectionId := connection_id;
         Stream.Data := Stream.token_message text (token_count + 1);
         Stream.raised := None |}
      :: token_attempts connection_id rest (token_count + 1)
  end.

(** The publish calls the AppSync relay makes for [texts] when the counter
    stands at [token_count] and [n] publishes were made before. *)
Fixpoint token_publishes (w : Processing.world) (session_id : json)
    (appsync_url region : string) (texts : list json)
    (token_count : Z) (n : nat) : list Processing.publish_call :=
  match texts with
  | [] => []
  | text :: rest =>
      {| Processing.session_id := session_id;
         Processing.token := text;
         Processing.is_complete := false;
         Processing.sequence := token_count + 1;
         Processing.appsync_url := appsync_url;
         Processing.region := region;
         Processing.returned := Processing.reply_ok (Processing.urlopen w n) |}
      :: token_publishes w session_id appsync_url region rest
           (token_count + 1) (Datatypes.S n)
  end.

(** [e] is the [ClientError] API Gateway raises for a closed connection. *)
Definition is_gone (e : exn) : bool :=
  match e with
  | ClientError code _ => String.eqb code "GoneException"
  | _ => false
  end.

(** State of the WebSocket handler after further posts and log lines. *)
Definition ws_posted (st : Stream.state) (extra : list Stream.attempt)
  : Stream.state :=
  {| Stream.invocations := Stream.invocations st;
     Stream.sends := Stream.sends st ++ extra;
     Stream.log := Stream.log st |}.

Definition ws_logged (st : Stream.state) (extra : list Stream.log_entry)
  : Stream.state :=
  {| Stream.invocations := Stream.invocations st;
     Stream.sends := Stream.sends st;
     Stream.log := Stream.log st ++ extra |}.

Definition ws_attempt (connection_id : string) (data : json)
    (raised : option exn) : Stream.attempt :=
  {| Stream.ConnectionId := connection_id;
     Stream.Data := data;
     Stream.raised := raised |}.

(** Fields of a posted message; a message that lacks the field has none. *)
Definition message_field (key : string) (a : Stream.attempt) : option json :=
  match Stream.Data a with
  | JObj fields => lookup key fields
  | _ => None
  end.

(** State of the AppSync processor after further publish calls. *)
Definition published (st : Processing.state)
    (extra : list Processing.publish_call) : Processing.state :=
  {| Processing.invocations := Processing.invocations st;
     Processing.publishes := Processing.publishes st ++ extra;
     Processing.log := Processing.log st |}.

(** The fields, settings and prompt preview that
    [process_streaming_request] reads before its [try] block are all there. *)
Definition appsync_request (w : Processing.world) (message_body : json)
    (prompt session_id : json) (appsync_url region : string) : Prop :=
  py_getitem message_body "prompt" = Ok prompt /\
  py_getitem message_body "sessionId" = Ok session_id /\
  Processing.getenv w "APPSYNC_API_URL" = Ok appsync_url /\
  Processing.getenv w "AWS_REGION" = Ok region /\
  py_slice prompt = Ok tt.

(** The body of the WebSocket event parses and yields [prompt] and
    [max_tokens]. *)
Definition ws_request (ev : Stream.ws_event) (prompt max_tokens : json) : Prop :=
  exists body,
    Stream.event_body ev = Parses body /\
    Stream.read_request body = Ok (prompt, max_tokens).

(** The publish call that signals completion after [n] tokens, and the one
    that reports an error. *)
Definition completion_publish (session_id : json) (appsync_url region : string)
    (token_count : Z) (returned : bool) : Processing.publish_call :=
  {| Processing.session_id := session_id;
     Processing.token := JStr EmptyString;
     Processing.is_complete := true;
     Processing.sequence := token_count + 1;
     Processing.appsync_url := appsync_url;
     Processing.region := region;
     Processing.returned := returned |}.

Definition error_publish (session_id : json) (appsync_url region : string)
    (e : exn) (returned : bool) : Processing.publish_call :=
  {| Processing.session_id := session_id;
     Processing.token := JStr ("Error: " ++ str e);
     Processing.is_complete := true;
     Processing.sequence := 999;
     Processing.appsync_url := appsync_url;
     Processing.region := region;
     Processing.returned := returned |}.

(** ** Concrete services and requests *)

Definition sample_context : Stream.lambda_context :=
  {| Stream.aws_request_id := "req-1" |}.

Definition sample_event (body : option json_text) : Stream.ws_event :=
  {| Stream.requestContext :=
       {| Stream.connectionId := "conn-1";
          Stream.domainName := "api.example";
          Stream.stage := "prod";
          Stream.principalId := Some "user-1" |};
     Stream.body := body |}.

(** A Bedrock stream of well-formed text deltas. *)
Definition sample_stream (texts : list string) (fin : option exn)
  : response_stream :=
  {| events := map text_delta texts; ending := fin |}.

Definition stream_world (texts : list string) (fin : option exn)
    (sink : nat -> option exn) : Stream.world :=
  {| Stream.invoke_model_with_response_stream :=
       fun _ _ => Ok (sample_stream texts fin);
     Stream.post_to_connection := sink |}.

Definition sample_environ (name : string) : option string :=
  if String.eqb name "APPSYNC_API_URL" then Some "https://appsync.example/graphql"
  else if String.eqb name "AWS_REGION" then Some "us-east-1"
  else if String.eqb name "STREAMING_QUEUE_URL" then Some "https://sqs.example/queue"
  else None.

Definition processing_world (texts : list string) (fin : option exn)
    (http : nat -> Processing.http_outcome) : Processing.world :=
  {| Processing.environ := sample_environ;
     Processing.invoke_model_with_response_stream :=
       fun _ _ => Ok (sample_stream texts fin);
     Processing.urlopen := http |}.

Definition sample_message (prompt session_id : string) : json :=
  JObj [("prompt", JStr prompt); ("sessionId", JStr session_id);
        ("requestId", JStr "req-1"); ("timestamp", JStr "2024-01-01T00:00:00")].

(** AppSync accepts every publish. *)
Definition http_ok (n : nat) : Processing.http_outcome :=
  Processing.HttpResult [("data", JObj [])].

(** The connection takes every post. *)
Definition sink_ok (n : nat) : option exn := None.

(** The connection is closed from the [k]-th post (from 0) on. *)
Definition sink_gone_from (k : nat) (n : nat) : option exn :=
  if (n <? k)%nat then None
  else Some (ClientError "GoneException" "connection is gone").

(** The [k]-th post (from 0) is refused with an error other than gone. *)
Definition sink_error_at (k : nat) (n : nat) : option exn :=
  if (n =? k)%nat then Some (ClientError "ForbiddenException" "forbidden")
  else None.

(** The scenario of a stream that yields three deltas and ends. *)
Definition hello_texts : list string := ["Hel"; "lo"; " world"].

Definition hello_processing : Processing.world :=
  processing_world hello_texts None http_ok.

Definition hello_stream : Stream.world :=
  stream_world hello_texts None sink_ok.

(** A stream of one delta that ends normally, on a connection that takes
    every post. *)
Definition single_stream : Stream.world :=
  stream_world ["A"] None sink_ok.

(** Three deltas, on a connection that closes at the second post. *)
Definition closing_stream : Stream.world :=
  stream_world ["A"; "B"; "C"] None (sink_gone_from 1).

(** Two deltas, on a connection that is closed from the start. *)
Definition closed_stream : Stream.world :=
  stream_world ["A"; "B"] None (sink_gone_from 0).

(** Three deltas, on a connection that refuses the second post. *)
Definition refusing_stream : Stream.world :=
  stream_world ["A"; "B"; "C"] None (sink_error_at 1).

(** One delta, on a connection that refuses the first post. *)
Definition refused_stream : Stream.world :=
  stream_world ["A"] None (sink_error_at 0).

(** One delta, on a connection that closes before the completion message. *)
Definition late_closing_stream : Stream.world :=
  stream_world ["A"] None (sink_gone_from 1).

(** One delta, on a connection that refuses the completion message. *)
Definition late_refusing_stream : Stream.world :=
  stream_world ["A"] None (sink_error_at 1).

(** AppSync rejects every publish. *)
Definition http_rejects (n : nat) : Processing.http_outcome :=
  Processing.HttpRaises (OtherException "HTTP Error 403: Forbidden").

(** A stream of 999 text deltas whose iteration then raises. *)
Definition long_failing_processing : Processing.world :=
  processing_world (repeat "x" 999)
    (Some (OtherException "upstream stalled")) http_ok.

(** [true] when every number is smaller than the next. *)
Fixpoint strictly_increasing (numbers : list Z) : bool :=
  match numbers with
  | [] => true
  | n :: rest =>
      match rest with
      | [] => true
      | m :: _ => (n <? m) && strictly_increasing rest
      end
  end.

(** State of the AppSync processor after further log lines. *)
Definition logged (st : Processing.state) (extra : list Processing.log_entry)
  : Processing.state :=
  {| Processing.invocations := Processing.invocations st;
     Processing.publishes := Processing.publishes st;
     Processing.log := Processing.log st ++ extra |}.

(** What one record adds to [failed_message_ids] when its processing starts
    in state [st]: nothing when [json.loads] raises [JSONDecodeError] on the
    body or the processing returns [True], its message id otherwise. *)
Definition contribution (w : Processing.world) (record : Processing.sqs_record)
    (st : Processing.state) : list string :=
  match Processing.body record with
  | Malformed _ => []
  | TooDeep _ => [Processing.messageId record]
  | Parses message_body =>
      match snd (Processing.process_streaming_request w message_body st) with
      | Ok true => []
      | Ok false => [Processing.messageId record]
      | Raise _ => [Processing.messageId record]
      end
  end.

(** What a run of records adds to the list, each record starting in the
    state its predecessors left. *)
Fixpoint contributions (w : Processing.world)
    (records : list Processing.sqs_record) (st : Processing.state)
  : list string :=
  match records with
  | [] => []
  | record :: rest =>
      contribution w record st ++
      contributions w rest (fst (Processing.handle_record w record [] st))
  end.

(** The state in which the handler reaches the record at position [i]. *)
Definition state_before (w : Processing.world) (ev : Processing.sqs_event)
    (i : nat) : Processing.state :=
  fst (Processing.handle_records w (firstn i (Processing.event_records ev)) []
         Processing.initial).

(** A batch of four messages: one whose body is not JSON, one that lacks
    the session id, one that is well formed, one whose body is nested too
    deep for the decoder. *)
Definition sample_batch : Processing.sqs_event :=
  {| Processing.Records := Some
       [{| Processing.messageId := "m-1";
           Processing.body := Malformed "Expecting value: line 1 column 1 (char 0)" |};
        {| Processing.messageId := "m-2";
           Processing.body := Parses (JObj [("prompt", JStr "hi")]) |};
        {| Processing.messageId := "m-3";
           Processing.body := Parses (sample_message "hi" "s-3") |};
        {| Processing.messageId := "m-4";
           Processing.body := TooDeep "maximum recursion depth exceeded" |}] |}.

(** The message [request.py] puts on the queue. *)
Definition queued_message (w : Request.world) (context : Request.lambda_context)
    (prompt : json) (timestamp : string) : json :=
  JObj [("prompt", prompt);
        ("sessionId", JStr (Request.uuid4 w));
        ("requestId", JStr (Request.aws_request_id context));
        ("timestamp", JStr timestamp)].

Definition started_response (session_id timestamp : string) : json :=
  JObj [("sessionId", JStr session_id);
        ("status", JStr "streaming_started");
        ("message", JStr "AI streaming session initiated. Subscribe to receive real-time tokens.");
        ("timestamp", JStr timestamp)].

Definition failed_response (session_id timestamp : string) (e : exn) : json :=
  JObj [("sessionId", JStr session_id);
        ("status", JStr "error");
        ("error", JStr ("Failed to initiate streaming: " ++ str e));
        ("timestamp", JStr timestamp)].

(** A field of a returned dict; anything else than a dict has none. *)
Definition field (key : string) (response : json) : option json :=
  match response with
  | JObj fields => lookup key fields
  | _ => None
  end.

Definition request_world (reply : res string) : Request.world :=
  {| Request.environ := sample_environ;
     Request.uuid4 := "123e4567-e89b-12d3-a456-426614174000";
     Request.utcnow_isoformat := fun _ => "2024-01-01T00:00:00";
     Request.send_message := fun _ _ => reply |}.

Definition request_context : Request.lambda_context :=
  {| Request.aws_request_id := "req-1" |}.

(** The AppSync event of [startStream(prompt: ...)]. *)
Definition start_event (prompt : string) : list (string * json) :=
  [("arguments", JObj [("prompt", JStr prompt)]);
   ("info", JObj [("fieldName", JStr "startStream")])].

(** The same event with no prompt among its arguments. *)
Definition bare_start_event : list (string * json) :=
  [("arguments", JObj []);
   ("info", JObj [("fieldName", JStr "startStream")])].

(** The WebSocket event with [prompt] added to the fields of its body. *)
Definition with_body (ev : Stream.ws_event) (fields : list (string * json))
  : Stream.ws_event :=
  {| Stream.requestContext := Stream.requestContext ev;
     Stream.body := Some (Parses (JObj fields)) |}.

(** ** Vocabulary of the further properties *)

(** [true] when the call of [post_to_connection] returned. *)
Definition delivered (a : Stream.attempt) : bool :=
  match Stream.raised a with
  | None => true
  | Some _ => false
  end.

(** The posted message has the given ["type"]. *)
Definition has_type (a : Stream.attempt) (type : string) : bool :=
  match message_field "type" a with
  | Some ty => eq_str ty type
  | None => false
  end.

(** The posted message is a token message numbered [n]. *)
Definition token_numbered (a : Stream.attempt) (n : Z) : bool :=
  has_type a "token" &&
  match message_field "sequence" a with
  | Some (JNum m) => m =? n
  | _ => false
  end.

(** Token posts numbered [c+1, c+2, ...] without a gap, of which only the
    last may have failed. *)
Fixpoint token_run (c : Z) (attempts : list Stream.attempt) : bool :=
  match attempts with
  | [] => true
  | a :: rest =>
      token_numbered a (c + 1) &&
      match rest with
      | [] => true
      | _ => delivered a
      end &&
      token_run (c + 1) rest
  end.

(** How a WebSocket run may end: with one completion or error message, or
    with a completion message that failed followed by an error message. *)
Definition terminal_run (attempts : list Stream.attempt) : bool :=
  match attempts with
  | [a] => has_type a "complete" || has_type a "error"
  | [a; b] => has_type a "complete" && negb (delivered a) && has_type b "error"
  | _ => false
  end.

(** What [process_streaming_request] reads before its [try] block (lines
    166-175): the two fields of the message, the two settings, and the
    preview of the prompt. *)
Definition request_fields (w : Processing.world) (message_body : json)
  : res (json * json * string * string) :=
  res_bind (py_getitem message_body "prompt") (fun prompt =>
  res_bind (py_getitem message_body "sessionId") (fun session_id =>
  res_bind (Processing.getenv w "APPSYNC_API_URL") (fun appsync_url =>
  res_bind (Processing.getenv w "AWS_REGION") (fun region =>
  res_bind (py_slice prompt) (fun _ =>
  Ok (prompt, session_id, appsync_url, region)))))).

(** A Bedrock stream given as it is, and a world that serves it. *)
Definition raw_processing (invoked : res response_stream)
    (http : nat -> Processing.http_outcome) : Processing.world :=
  {| Processing.environ := sample_environ;
     Processing.invoke_model_with_response_stream := fun _ _ => invoked;
     Processing.urlopen := http |}.

Definition raw_stream (invoked : res response_stream)
    (sink : nat -> option exn) : Stream.world :=
  {| Stream.invoke_model_with_response_stream := fun _ _ => invoked;
     Stream.post_to_connection := sink |}.

(** One delta, then the iteration raises. *)
Definition stalled_stream : Stream.world :=
  stream_world ["partial"] (Some (OtherException "upstream stalled")) sink_ok.

(** [picked] lists some of the elements of [all], in the order of [all]. *)
Inductive picked_from : list string -> list string -> Prop :=
| picked_nil : picked_from [] []
| picked_skip (y : string) (picked all : list string) :
    picked_from picked all -> picked_from picked (y :: all)
| picked_take (y : string) (picked all : list string) :
    picked_from picked all -> picked_from (y :: picked) (y :: all).

(** ** websocket_api/authorizer.py *)

From Stdlib Require Import Ascii.

(** [s.split(sep)] for a separator of one character. *)
Fixpoint split_on (sep : Ascii.ascii) (s : string) : list string :=
  match s with
  | EmptyString => [EmptyString]
  | String c rest =>
      if Ascii.eqb c sep then EmptyString :: split_on sep rest
      else
        match split_on sep rest with
        | [] => [String c EmptyString]
        | part :: parts => String c part :: parts
        end
  end.

Module Authorizer.

(** The exceptions of the [try] block, by the classes its [except] clauses
    tell apart; [OtherError] is any exception that is not an
    [InvalidTokenError]. *)
Inductive failure : Type :=
| ExpiredSignatureError
| InvalidTokenError (msg : string)
| OtherError (e : exn).

(** How the verification of a token by PyJWT ends (lines 76-85): with the
    decoded claims or with an exception. *)
Inductive jwt_outcome : Type :=
| Decoded (decoded_token : json)
| Fails (f : failure).

(** [verify jwks_url token issuer] stands for fetching the signing key from
    [jwks_url] and decoding [token] with RS256 against [issuer]. *)
Record world : Type := {
  environ : string -> option string;
  verify : string -> json -> string -> jwt_outcome
}.

(** [queryStringParameters = None]: the event has no such key. *)
Record authorizer_event : Type := {
  queryStringParameters : option json;
  methodArn : string
}.

Record lambda_context : Type := { invoked_function_arn : string }.

Inductive log_entry : Type :=
| NoTokenProvided
| AuthorizationSuccessful (sub : json)
| TokenExpired
| InvalidToken (msg : string)
| AuthorizationFailed (msg : string).

(** Lines 103-147. *)
Definition generate_policy (principal_id : json) (effect resource : string)
  : json :=
  JObj [("principalId", principal_id);
        ("policyDocument",
         JObj [("Version", JStr "2012-10-17");
               ("Statement",
                JArr [JObj [("Action", JStr "execute-api:Invoke");
                            ("Effect", JStr effect);
                            ("Resource", JStr resource)]])])].

Definition jwks_url (region user_pool_id : string) : string :=
  "https://cognito-idp." ++ region ++ ".amazonaws.com/" ++ user_pool_id ++
  "/.well-known/jwks.json".

Definition issuer (region user_pool_id : string) : string :=
  "https://cognito-idp." ++ region ++ ".amazonaws.com/" ++ user_pool_id.

(** How the [try] block ends: by one of its [return]s, with what it printed,
    or by an exception. *)
Inductive try_result : Type :=
| Returned (printed : list log_entry) (policy : json)
| Raised (f : failure).

(** [event.get("queryStringParameters", {})] *)
Definition query (ev : authorizer_event) : json :=
  match queryStringParameters ev with
  | Some parameters => parameters
  | None => JObj []
  end.

(** Lines 55-90. *)
Definition try_block (w : world) (ev : authorizer_event)
    (context : lambda_context) : try_result :=
  match py_get (query ev) "token" JNull with
  | Raise e => Raised (OtherError e)
  | Ok token =>
      if negb (truthy token)
      then Returned [NoTokenProvided]
             (generate_policy (JStr "user") "Deny" (methodArn ev))
      else
        match environ w "USER_POOL_ID" with
        | None => Raised (OtherError (KeyError "USER_POOL_ID"))
        | Some user_pool_id =>
            match nth_error
                    (split_on ":"%char (invoked_function_arn context)) 3 with
            | None => Raised (OtherError (OtherException "list index out of range"))
            | Some region =>
                match verify w (jwks_url region user_pool_id) token
                        (issuer region user_pool_id) with
                | Decoded decoded_token =>
                    match py_getitem decoded_token "sub" with
                    | Ok sub =>
                        Returned [AuthorizationSuccessful sub]
                          (generate_policy sub "Allow" (methodArn ev))
                    | Raise e => Raised (OtherError e)
                    end
                | Fails f => Raised f
                end
            end
        end
  end.

(** Lines 30-100: what the handler prints and the policy it returns. *)
Definition lambda_handler (w : world) (ev : authorizer_event)
    (context : lambda_context) : list log_entry * json :=
  let deny := generate_policy (JStr "user") "Deny" (methodArn ev) in
  match try_block w ev context with
  | Returned printed policy => (printed, policy)
  | Raised ExpiredSignatureError => ([TokenExpired], deny)
  | Raised (InvalidTokenError msg) => ([InvalidToken msg], deny)
  | Raised (OtherError e) => ([AuthorizationFailed (str e)], deny)
  end.

End Authorizer.

(** The effect of a policy returned by [generate_policy]. *)
Definition policy_effect (policy : json) : option json :=
  match field "policyDocument" policy with
  | Some document =>
      match field "Statement" document with
      | Some (JArr [statement]) => field "Effect" statement
      | _ => None
      end
  | None => None
  end.

(** The resource of a policy returned by [generate_policy]. *)
Definition policy_resource (policy : json) : option json :=
  match field "policyDocument" policy with
  | Some document =>
      match field "Statement" document with
      | Some (JArr [statement]) => field "Resource" statement
      | _ => None
      end
  | None => None
  end.

(** No character of [s] is [sep]. *)
Fixpoint free_of (sep : Ascii.ascii) (s : string) : bool :=
  match s with
  | EmptyString => true
  | String c rest => negb (Ascii.eqb c sep) && free_of sep rest
  end.

(** A verifier that accepts one token and rejects the others as invalid. *)
Definition sample_authorizer (valid : string) (claims : json)
  : Authorizer.world :=
  {| Authorizer.environ :=
       fun name => if String.eqb name "USER_POOL_ID"
                   then Some "us-east-1_AbCdEfGhI" else None;
     Authorizer.verify :=
       fun _ token _ =>
         if eq_str token valid then Authorizer.Decoded claims
         else Authorizer.Fails
                (Authorizer.InvalidTokenError "Signature verification failed") |}.

Definition connect_event (parameters : option json) : Authorizer.authorizer_event :=
  {| Authorizer.queryStringParameters := parameters;
     Authorizer.methodArn :=
       "arn:aws:execute-api:us-east-1:123456789012:abcdef/prod/GET/$connect" |}.

Definition authorizer_context : Authorizer.lambda_context :=
  {| Authorizer.invoked_function_arn :=
       "arn:aws:lambda:us-east-1:123456789012:function:authorizer" |}.

(** ** appsync/publish_token.py *)

Module PublishToken.

(** The arguments of the [publishToken] mutation, typed by its schema
    (lines 17-19); [None]: the key is absent.  A string stands for the
    sequence of its characters. *)
Record publish_arguments : Type := {
  sessionId : option string;
  token : option string;
  isComplete : option bool
}.

(** [arguments = None]: the event has no ["arguments"] key. *)
Record resolver_event : Type := { arguments : option publish_arguments }.

Inductive log_entry : Type :=
| StreamCompleted (session_id : string)
| PublishingToken (session_id : string) (token_preview : string).

(** [x.get(key, default)] on a key that may be absent. *)
Definition get_or {A} (value : option A) (default : A) : A :=
  match value with
  | Some v => v
  | None => default
  end.

(** Line 114: the token as the log line shows it. *)
Definition token_preview (token : string) : string :=
  if (50 <? String.length token)%nat
  then String.substring 0 50 token ++ "..."
  else token.

(** Lines 55-186, with the reading of the clock passed in: what the resolver
    prints about the token and the dict it returns. *)
Definition lambda_handler (utcnow_isoformat : string) (ev : resolver_event)
  : list log_entry * json :=
  let arguments :=
    get_or (arguments ev)
      {| sessionId := None; token := None; isComplete := None |} in
  let session_id := get_or (sessionId arguments) EmptyString in
  let token := get_or (token arguments) EmptyString in
  let is_complete := get_or (isComplete arguments) false in
  let timestamp := utcnow_isoformat in
  let printed :=
    if is_complete then [StreamCompleted session_id]
    else [PublishingToken session_id (token_preview token)] in
  (printed,
   JObj [("sessionId", JStr session_id);
         ("token", JStr token);
         ("isComplete", JBool is_complete);
         ("timestamp", JStr timestamp)]).

End PublishToken.

(** * Properties *)

(** ** The WebSocket relay loop *)

Section StreamLoop.

Variable w : Stream.world.
Variable connection_id : string.

Lemma ws_posted_nil (st : Stream.state) : ws_posted st [] = st.
Proof.
  destruct st; unfold ws_posted; simpl. now rewrite app_nil_r.
Qed.

Lemma ws_posted_app (st : Stream.state) (xs ys : list Stream.attempt) :
  ws_posted (ws_posted st xs) ys = ws_posted st (xs ++ ys).
Proof.
  unfold ws_posted; simpl. now rewrite app_assoc.
Qed.

(** One iteration of the loop, by what the event carries and how the post
    ends. *)
Lemma ws_loop_cons (ev : event) (rest : list event) (ending : option exn)
    (c : Z) (st : Stream.state) :
  Stream.relay_loop w connection_id (ev :: rest) ending c st =
  match event_text ev with
  | Raise e => (st, Raise e)
  | Ok None => Stream.relay_loop w connection_id rest ending c st
  | Ok (Some text) =>
      let r := Stream.post_to_connection w (List.length (Stream.sends st)) in
      let st' := ws_posted st
                   [ws_attempt connection_id (Stream.token_message text (c + 1)) r] in
      match r with
      | None => Stream.relay_loop w connection_id rest ending (c + 1) st'
      | Some e =>
          if is_gone e
          then (ws_logged st' [Stream.ConnectionClosed (c + 1)], Ok (c + 1))
          else (st', Raise e)
      end
  end.
Proof.
  cbn [Stream.relay_loop]. unfold bind at 1. unfold lift.
  destruct (event_text ev) as [[text|]|e]; try reflexivity.
  unfold bind, Stream.post. cbv zeta.
  destruct (Stream.post_to_connection w (List.length (Stream.sends st)))
    as [e|]; try reflexivity.
  destruct e; try reflexivity.
  unfold is_gone. destruct (String.eqb code "GoneException"); reflexivity.
Qed.

(** A prefix of events that all pass, posted without failure, moves the
    counter on by the number of texts it carries. *)
Lemma ws_loop_prefix (pre : list event) :
  forall (texts : list json) (rest : list event) (ending : option exn)
         (c : Z) (st : Stream.state),
    fragments_of pre = Ok texts ->
    (forall i, (i < List.length texts)%nat ->
       Stream.post_to_connection w (List.length (Stream.sends st) + i) = None) ->
    Stream.relay_loop w connection_id (pre ++ rest) ending c st =
    Stream.relay_loop w connection_id rest ending
      (c + Z.of_nat (List.length texts))
      (ws_posted st (token_attempts connection_id texts c)).
Proof.
  induction pre as [|ev pre IH]; intros texts rest ending c st Hfr Hok.
  - injection Hfr as <-. simpl. now rewrite ws_posted_nil, Z.add_0_r.
  - rewrite <- app_comm_cons, ws_loop_cons.
    simpl in Hfr. destruct (event_text ev) as [[text|]|e]; try discriminate.
    + destruct (fragments_of pre) as [ts|] eqn:Hts; try discriminate.
      injection Hfr as <-.
      cbv zeta. rewrite <- (Nat.add_0_r (List.length (Stream.sends st))).
      rewrite (Hok 0%nat) by (simpl; lia).
      rewrite (IH ts rest ending (c + 1) _ eq_refl).
      * rewrite ws_posted_app. simpl token_attempts. simpl List.length.
        f_equal. lia.
      * intros i Hi. unfold ws_posted. cbn [Stream.sends].
        rewrite length_app. cbn [List.length].
        match goal with
        | |- Stream.post_to_connection w ?n = None =>
            replace n
              with (List.length (Stream.sends st) + Datatypes.S i)%nat by lia
        end.
        apply Hok. simpl. lia.
    + now apply IH.
Qed.

End StreamLoop.

(** ** The AppSync relay loop *)

Section ProcessingLoop.

Variable w : Processing.world.
Variable session_id : json.
Variables appsync_url region : string.

Lemma published_nil (st : Processing.state) : published st [] = st.
Proof.
  destruct st; unfold published; simpl. now rewrite app_nil_r.
Qed.

Lemma published_app (st : Processing.state)
    (xs ys : list Processing.publish_call) :
  published (published st xs) ys = published st (xs ++ ys).
Proof.
  unfold published; simpl. now rewrite app_assoc.
Qed.

(** One iteration of the loop: the result of the publish is not looked at. *)
Lemma appsync_loop_cons (ev : event) (rest : list event)
    (ending : option exn) (c : Z) (st : Processing.state) :
  Processing.relay_loop w session_id appsync_url region (ev :: rest) ending c st =
  match event_text ev with
  | Raise e => (st, Raise e)
  | Ok None =>
      Processing.relay_loop w session_id appsync_url region rest ending c st
  | Ok (Some text) =>
      Processing.relay_loop w session_id appsync_url region rest ending (c + 1)
        (published st
           (token_publishes w session_id appsync_url region [text] c
              (List.length (Processing.publishes st))))
  end.
Proof.
  cbn [Processing.relay_loop]. unfold bind at 1. unfold lift.
  destruct (event_text ev) as [[text|]|e]; reflexivity.
Qed.

Lemma appsync_loop_prefix (pre : list event) :
  forall (texts : list json) (rest : list event) (ending : option exn)
         (c : Z) (st : Processing.state),
    fragments_of pre = Ok texts ->
    Processing.relay_loop w session_id appsync_url region (pre ++ rest) ending c st =
    Processing.relay_loop w session_id appsync_url region rest ending
      (c + Z.of_nat (List.length texts))
      (published st
         (token_publishes w session_id appsync_url region texts c
            (List.length (Processing.publishes st)))).
Proof.
  induction pre as [|ev pre IH]; intros texts rest ending c st Hfr.
  - injection Hfr as <-. simpl. now rewrite published_nil, Z.add_0_r.
  - rewrite <- app_comm_cons, appsync_loop_cons.
    simpl in Hfr. destruct (event_text ev) as [[text|]|e]; try discriminate.
    + destruct (fragments_of pre) as [ts|] eqn:Hts; try discriminate.
      injection Hfr as <-.
      rewrite (IH ts rest ending (c + 1) _ eq_refl).
      rewrite published_app. f_equal.
      * simpl List.length. lia.
      * f_equal. unfold published. cbn [Processing.publishes].
        rewrite length_app. cbn [token_publishes List.length app].
        now rewrite Nat.add_1_r.
    + now apply IH.
Qed.

Lemma token_publishes_sequence (texts : list json) :
  forall (c : Z) (n : nat),
    map Processing.sequence
      (token_publishes w session_id appsync_url region texts c n) =
    sequence_numbers c (List.length texts).
Proof.
  induction texts as [|t ts IH]; intros c n; simpl; [reflexivity|].
  now rewrite IH.
Qed.

Lemma token_publishes_token (texts : list json) :
  forall (c : Z) (n : nat),
    map Processing.token
      (token_publishes w session_id appsync_url region texts c n) = texts.
Proof.
  induction texts as [|t ts IH]; intros c n; simpl; [reflexivity|].
  now rewrite IH.
Qed.

Lemma token_publishes_not_complete (texts : list json) :
  forall (c : Z) (n : nat),
    Forall (fun call => Processing.is_complete call = false)
      (token_publishes w session_id appsync_url region texts c n).
Proof.
  induction texts as [|t ts IH]; intros c n; simpl; constructor; auto.
Qed.

Lemma token_publishes_length (texts : list json) :
  forall (c : Z) (n : nat),
    List.length (token_publishes w session_id appsync_url region texts c n) =
    List.length texts.
Proof.
  induction texts as [|t ts IH]; intros c n; simpl; [reflexivity|].
  now rewrite IH.
Qed.

(** The loop over a whole stream whose events all pass the filter. *)
Lemma appsync_loop_all (evs : list event) (texts : list json)
    (fin : option exn) (c : Z) (st : Processing.state) :
  fragments_of evs = Ok texts ->
  Processing.relay_loop w session_id appsync_url region evs fin c st =
  (published st
     (token_publishes w session_id appsync_url region texts c
        (List.length (Processing.publishes st))),
   match fin with
   | None => Ok (c + Z.of_nat (List.length texts))
   | Some e => Raise e
   end).
Proof.
  intros Hfr. rewrite <- (app_nil_r evs) at 1.
  rewrite (appsync_loop_prefix evs texts [] fin c st Hfr).
  cbn [Processing.relay_loop]. now destruct fin.
Qed.

(** The whole run of [process_streaming_request] on a stream whose events
    all pass the filter: a completion publish on a natural end, an error
    publish when the iteration raises; no publish result changes the
    course. *)
Lemma appsync_run (message_body prompt : json) (st : Processing.state)
    (evs : list event) (fin : option exn) (texts : list json) :
  appsync_request w message_body prompt session_id appsync_url region ->
  Processing.invoke_model_with_response_stream w
    (List.length (Processing.invocations st)) prompt =
    Ok {| events := evs; ending := fin |} ->
  fragments_of evs = Ok texts ->
  let tokens := token_publishes w session_id appsync_url region texts 0
                  (List.length (Processing.publishes st)) in
  let n := (List.length (Processing.publishes st) + List.length texts)%nat in
  let total := Z.of_nat (List.length texts) in
  Processing.process_streaming_request w message_body st =
  match fin with
  | None =>
      ({| Processing.invocations := Processing.invocations st ++ [prompt];
          Processing.publishes :=
            Processing.publishes st ++ tokens ++
            [completion_publish session_id appsync_url region total
               (Processing.reply_ok (Processing.urlopen w n))];
          Processing.log := Processing.log st ++ [Processing.StreamCompleted total] |},
       Ok true)
  | Some e =>
      ({| Processing.invocations := Processing.invocations st ++ [prompt];
          Processing.publishes :=
            Processing.publishes st ++ tokens ++
            [error_publish session_id appsync_url region e
               (Processing.reply_ok (Processing.urlopen w n))];
          Processing.log := Processing.log st ++ [Processing.StreamError (str e)] |},
       Ok false)
  end.
Proof.
  intros (Hp & Hs & Hu & Hr & Hsl) Hinv Hfr tokens n total.
  unfold Processing.process_streaming_request.
  unfold bind at 1. unfold lift at 1. rewrite Hp.
  unfold bind at 1. unfold lift at 1. rewrite Hs.
  unfold bind at 1. unfold lift at 1. rewrite Hu.
  unfold bind at 1. unfold lift at 1. rewrite Hr.
  unfold bind at 1. unfold lift at 1. rewrite Hsl.
  unfold try_except. unfold bind at 1. unfold Processing.invoke at 1.
  rewrite Hinv. cbn [events ending].
  unfold bind at 1. rewrite (appsync_loop_all evs texts fin 0 _ Hfr).
  cbn [Processing.publishes Processing.invocations Processing.log published].
  fold tokens. rewrite Z.add_0_l. fold total.
  destruct fin as [e|].
  - unfold bind, Processing.print, modify,
      Processing.publish_token_to_appsync, ret, published.
    cbn [Processing.publishes Processing.invocations Processing.log].
    rewrite length_app. unfold tokens at 2.
    rewrite token_publishes_length. fold n.
    unfold error_publish. now rewrite <- app_assoc.
  - unfold ret, bind, Processing.print, modify,
      Processing.publish_token_to_appsync, published.
    cbn [Processing.publishes Processing.invocations Processing.log].
    rewrite length_app. unfold tokens at 2.
    rewrite token_publishes_length. fold n.
    unfold completion_publish. now rewrite <- app_assoc.
Qed.

End ProcessingLoop.

(** ** The WebSocket handler *)

Section StreamHandler.

Variable w : Stream.world.
Variable connection_id : string.
Variable context : Stream.lambda_context.

(** The loop over a whole stream whose events all pass the filter and whose
    posts all return. *)
Lemma ws_loop_all (evs : list event) (texts : list json)
    (fin : option exn) (c : Z) (st : Stream.state) :
  fragments_of evs = Ok texts ->
  (forall i, (i < List.length texts)%nat ->
     Stream.post_to_connection w (List.length (Stream.sends st) + i) = None) ->
  Stream.relay_loop w connection_id evs fin c st =
  (ws_posted st (token_attempts connection_id texts c),
   match fin with
   | None => Ok (c + Z.of_nat (List.length texts))
   | Some e => Raise e
   end).
Proof.
  intros Hfr Hok. rewrite <- (app_nil_r evs) at 1.
  rewrite (ws_loop_prefix w connection_id evs texts [] fin c st Hfr Hok).
  cbn [Stream.relay_loop]. now destruct fin.
Qed.

Lemma token_attempts_length (texts : list json) :
  forall c : Z,
    List.length (token_attempts connection_id texts c) = List.length texts.
Proof.
  induction texts as [|t ts IH]; intros c; simpl; [reflexivity|].
  now rewrite IH.
Qed.

Lemma token_attempts_sequence (texts : list json) :
  forall c : Z,
    map (message_field "sequence") (token_attempts connection_id texts c) =
    map (fun n => Some (JNum n)) (sequence_numbers c (List.length texts)).
Proof.
  induction texts as [|t ts IH]; intros c; simpl; [reflexivity|].
  now rewrite IH.
Qed.

Lemma token_attempts_token (texts : list json) :
  forall c : Z,
    map (message_field "token") (token_attempts connection_id texts c) =
    map Some texts.
Proof.
  induction texts as [|t ts IH]; intros c; simpl; [reflexivity|].
  now rewrite IH.
Qed.

Lemma token_attempts_type (texts : list json) :
  forall c : Z,
    Forall (fun a => message_field "type" a = Some (JStr "token") /\
                     Stream.raised a = None)
      (token_attempts connection_id texts c).
Proof.
  induction texts as [|t ts IH]; intros c; simpl; constructor; auto.
Qed.

(** The completion message, by how its post ends. *)
Lemma ws_send_completion (c : Z) (st : Stream.state) :
  Stream.send_completion w connection_id context c st =
  let r := Stream.post_to_connection w (List.length (Stream.sends st)) in
  let st' := ws_posted st
               [ws_attempt connection_id
                  (Stream.complete_message c (Stream.aws_request_id context)) r] in
  match r with
  | None => (ws_logged st' [Stream.StreamingCompleted c], Ok tt)
  | Some e => if is_gone e then (st', Ok tt) else (st', Raise e)
  end.
Proof.
  unfold Stream.send_completion, bind, Stream.post. cbv zeta.
  destruct (Stream.post_to_connection w (List.length (Stream.sends st)))
    as [e|]; try reflexivity.
  destruct e; try reflexivity.
  unfold is_gone. destruct (String.eqb code "GoneException"); reflexivity.
Qed.

(** The [except] block: one post of the error message, whose failure is
    only logged. *)
Lemma ws_notify_error (e : exn) (st : Stream.state) :
  Stream.notify_error w connection_id context e st =
  let r := Stream.post_to_connection w (List.length (Stream.sends st)) in
  let st' := ws_posted (ws_logged st [Stream.StreamingError (str e)])
               [ws_attempt connection_id
                  (Stream.error_message (str e) (Stream.aws_request_id context)) r] in
  (match r with
   | None => st'
   | Some _ => ws_logged st' [Stream.CouldNotSendError]
   end, Ok tt).
Proof.
  unfold Stream.notify_error, bind, Stream.print, modify, Stream.post.
  cbn [Stream.sends]. cbv zeta.
  destruct (Stream.post_to_connection w (List.length (Stream.sends st)));
    reflexivity.
Qed.

End StreamHandler.

(** A request that parses reaches the relay; whatever the relay does, the
    handler returns its 200 response. *)
Lemma ws_handler_relays (w : Stream.world) (ev : Stream.ws_event)
    (context : Stream.lambda_context) (prompt max_tokens : json)
    (st : Stream.state) :
  ws_request ev prompt max_tokens ->
  Stream.lambda_handler w ev context st =
  (fst (try_except
          (Stream.relay w (Stream.connectionId (Stream.requestContext ev))
             context max_tokens prompt)
          (Stream.notify_error w (Stream.connectionId (Stream.requestContext ev))
             context) st),
   Ok (Stream.ok_response context)).
Proof.
  intros (body & Hbody & Hread).
  unfold Stream.lambda_handler. rewrite Hbody. cbn [json_loads].
  unfold bind at 1. unfold lift. rewrite Hread.
  unfold bind, try_except, ret.
  destruct (Stream.relay _ _ _ _ _ st) as [st' [[]|e]]; [reflexivity|].
  rewrite ws_notify_error. reflexivity.
Qed.

Lemma all_pass_fragments (evs : list event) (texts : list json) :
  Forall2 (fun ev text => event_text ev = Ok (Some text)) evs texts ->
  fragments_of evs = Ok texts.
Proof.
  induction 1 as [|ev text evs texts Hev _ IH]; simpl; [reflexivity|].
  now rewrite Hev, IH.
Qed.

Lemma token_publishes_returned (w : Processing.world) (session_id : json)
    (appsync_url region : string) (texts : list json) :
  forall (c : Z) (n : nat),
    (forall i, (i < List.length texts)%nat ->
       Processing.reply_ok (Processing.urlopen w (n + i)) = true) ->
    Forall (fun call => Processing.is_complete call = false /\
                        Processing.returned call = true)
      (token_publishes w session_id appsync_url region texts c n).
Proof.
  induction texts as [|t ts IH]; intros c n Hok; simpl; constructor.
  - split; [reflexivity|]. cbn [Processing.returned].
    rewrite <- (Nat.add_0_r n). apply Hok. simpl. lia.
  - apply IH. intros i Hi.
    replace (Datatypes.S n + i)%nat with (n + Datatypes.S i)%nat by lia.
    apply Hok. simpl. lia.
Qed.

(** The WebSocket run on a stream whose events all pass and whose token
    posts all return, up to the completion message. *)
Lemma ws_run_to_completion (w : Stream.world) (ev : Stream.ws_event)
    (context : Stream.lambda_context) (prompt max_tokens : json)
    (evs : list event) (texts : list json) :
  ws_request ev prompt max_tokens ->
  Stream.invoke_model_with_response_stream w max_tokens prompt =
    Ok {| events := evs; ending := None |} ->
  fragments_of evs = Ok texts ->
  (forall i, (i < List.length texts)%nat ->
     Stream.post_to_connection w i = None) ->
  let connection_id := Stream.connectionId (Stream.requestContext ev) in
  let total := Z.of_nat (List.length texts) in
  let r := Stream.post_to_connection w (List.length texts) in
  let st' :=
    {| Stream.invocations := [(prompt, max_tokens)];
       Stream.sends :=
         token_attempts connection_id texts 0 ++
         [ws_attempt connection_id
            (Stream.complete_message total (Stream.aws_request_id context)) r];
       Stream.log := [] |} in
  Stream.lambda_handler w ev context Stream.initial =
  (match r with
   | None => ws_logged st' [Stream.StreamingCompleted total]
   | Some e =>
       if is_gone e then st'
       else fst (Stream.notify_error w connection_id context e st')
   end, Ok (Stream.ok_response context)).
Proof.
  intros Hreq Hinv Hfr Hok connection_id total r st'.
  rewrite (ws_handler_relays w ev context prompt max_tokens _ Hreq).
  f_equal. fold connection_id.
  unfold try_except, Stream.relay. unfold bind at 1.
  unfold Stream.invoke at 1. rewrite Hinv. cbn [events ending].
  unfold bind at 1.
  rewrite (ws_loop_all w connection_id evs texts None 0 _ Hfr)
    by (intros i Hi; simpl; now apply Hok).
  rewrite ws_send_completion. cbv zeta.
  unfold ws_posted, ws_logged, Stream.initial.
  cbn [Stream.sends Stream.invocations Stream.log app].
  rewrite token_attempts_length, Z.add_0_l. fold total. fold r.
  destruct r as [e|]; [|reflexivity].
  destruct (is_gone e); reflexivity.
Qed.

(** ** C1: a run without failure *)

(** C1 (as amended).  For a source of N events that all carry text, when
    neither the pull nor any send fails: the AppSync processor makes N
    publish calls with [is_complete = False] and sequence 1..N in generation
    order, then one with [is_complete = True], the empty token and sequence
    N+1, logs the completion with total N and returns [True]; the WebSocket
    handler posts N token messages with sequence 1..N in generation order,
    then one message of type complete that carries [total_tokens = N] and
    neither a text nor a sequence number, logs the completion with N and
    returns its 200 response. *)
Theorem relay_without_failure :
  forall (evs : list event) (texts : list json)
         (wa : Processing.world) (message_body prompt session_id : json)
         (appsync_url region : string) (st : Processing.state)
         (ws : Stream.world) (ev : Stream.ws_event)
         (context : Stream.lambda_context) (ws_prompt max_tokens : json),
    Forall2 (fun ev text => event_text ev = Ok (Some text)) evs texts ->
    appsync_request wa message_body prompt session_id appsync_url region ->
    Processing.invoke_model_with_response_stream wa
      (List.length (Processing.invocations st)) prompt =
      Ok {| events := evs; ending := None |} ->
    (forall i, (i <= List.length texts)%nat ->
       Processing.reply_ok
         (Processing.urlopen wa (List.length (Processing.publishes st) + i)) = true) ->
    ws_request ev ws_prompt max_tokens ->
    Stream.invoke_model_with_response_stream ws max_tokens ws_prompt =
      Ok {| events := evs; ending := None |} ->
    (forall i, (i <= List.length texts)%nat ->
       Stream.post_to_connection ws i = None) ->
    let N := Z.of_nat (List.length texts) in
    let connection_id := Stream.connectionId (Stream.requestContext ev) in
    let tokens := token_publishes wa session_id appsync_url region texts 0
                    (List.length (Processing.publishes st)) in
    let posts := token_attempts connection_id texts 0 in
    (Processing.process_streaming_request wa message_body st =
       ({| Processing.invocations := Processing.invocations st ++ [prompt];
           Processing.publishes :=
             Processing.publishes st ++ tokens ++
             [completion_publish session_id appsync_url region N true];
           Processing.log :=
             Processing.log st ++ [Processing.StreamCompleted N] |},
        Ok true) /\
     map Processing.sequence tokens = sequence_numbers 0 (List.length texts) /\
     map Processing.token tokens = texts /\
     Forall (fun call => Processing.is_complete call = false /\
                         Processing.returned call = true) tokens) /\
    (Stream.lambda_handler ws ev context Stream.initial =
       ({| Stream.invocations := [(ws_prompt, max_tokens)];
           Stream.sends :=
             posts ++
             [ws_attempt connection_id
                (Stream.complete_message N (Stream.aws_request_id context)) None];
           Stream.log := [Stream.StreamingCompleted N] |},
        Ok (Stream.ok_response context)) /\
     map (message_field "sequence") posts =
       map (fun n => Some (JNum n)) (sequence_numbers 0 (List.length texts)) /\
     map (message_field "token") posts = map Some texts /\
     Forall (fun a => message_field "type" a = Some (JStr "token") /\
                      Stream.raised a = None) posts).
Proof.
  intros evs texts wa message_body prompt session_id appsync_url region st
         ws ev context ws_prompt max_tokens
         Hall Hreq Hinv Hhttp Hwsreq Hwsinv Hsink N connection_id tokens posts.
  pose proof (all_pass_fragments evs texts Hall) as Hfr.
  split; [split; [|split; [|split]] | split; [|split; [|split]]].
  - rewrite (appsync_run wa session_id appsync_url region message_body prompt
               st evs None texts Hreq Hinv Hfr).
    cbv zeta. fold tokens. fold N.
    now rewrite (Hhttp (List.length texts)) by lia.
  - apply token_publishes_sequence.
  - apply token_publishes_token.
  - apply token_publishes_returned. intros i Hi. apply Hhttp. lia.
  - rewrite (ws_run_to_completion ws ev context ws_prompt max_tokens evs texts
               Hwsreq Hwsinv Hfr) by (intros i Hi; apply Hsink; lia).
    cbv zeta. now rewrite (Hsink (List.length texts)) by lia.
  - apply token_attempts_sequence.
  - apply token_attempts_token.
  - apply token_attempts_type.
Qed.

Lemma relay_without_failure_witness :
  snd (Processing.process_streaming_request hello_processing
         (sample_message "hi" "s-1") Processing.initial) = Ok true /\
  map Processing.sequence
    (Processing.publishes
       (fst (Processing.process_streaming_request hello_processing
               (sample_message "hi" "s-1") Processing.initial))) = [1; 2; 3; 4] /\
  map (message_field "sequence")
    (Stream.sends
       (fst (Stream.lambda_handler hello_stream (sample_event None)
               sample_context Stream.initial))) =
    [Some (JNum 1); Some (JNum 2); Some (JNum 3); None].
Proof.
  assert (Hall : Forall2 (fun ev text => event_text ev = Ok (Some text))
                   (map text_delta hello_texts) (map JStr hello_texts))
    by (repeat constructor).
  destruct (relay_without_failure
              (map text_delta hello_texts) (map JStr hello_texts)
              hello_processing (sample_message "hi" "s-1")
              (JStr "hi") (JStr "s-1")
              "https://appsync.example/graphql" "us-east-1" Processing.initial
              hello_stream (sample_event None) sample_context
              (JStr default_prompt) (JNum 1000)
              Hall
              (conj eq_refl (conj eq_refl (conj eq_refl (conj eq_refl eq_refl))))
              eq_refl
              (fun i _ => eq_refl)
              (ex_intro _ (JObj []) (conj eq_refl eq_refl))
              eq_refl
              (fun i _ => eq_refl))
    as [[HA _] [HW _]].
  rewrite HA, HW. repeat split; reflexivity.
Defined.

(** Counterexample to C1 as stated: on a stream of one delta the last message
    the WebSocket handler posts, the completion message, has no sequence
    number, so it is not a fragment with sequence N+1 = 2 and empty text. *)
Lemma websocket_completion_has_no_sequence :
  ~ (exists earlier a,
       Stream.sends
         (fst (Stream.lambda_handler single_stream (sample_event None)
                 sample_context Stream.initial)) = (earlier ++ [a])%list /\
       message_field "sequence" a = Some (JNum (1 + 1)) /\
       message_field "token" a = Some (JStr EmptyString)).
Proof.
  intros (earlier & a & Hsends & Hseq & _).
  change (Stream.sends _) with
    ([ws_attempt "conn-1" (Stream.token_message (JStr "A") 1) None] ++
     [ws_attempt "conn-1" (Stream.complete_message 1 "req-1") None])%list
    in Hsends.
  apply app_inj_tail in Hsends as [_ <-].
  discriminate Hseq.
Qed.

(** ** C2 and C3: a token post that fails *)

(** The WebSocket run up to the first post that may fail: a prefix of the
    stream whose events pass and whose posts return. *)
Lemma ws_run_prefix (w : Stream.world) (ev : Stream.ws_event)
    (context : Stream.lambda_context) (prompt max_tokens : json)
    (pre rest : list event) (fin : option exn) (texts : list json) :
  ws_request ev prompt max_tokens ->
  Stream.invoke_model_with_response_stream w max_tokens prompt =
    Ok {| events := pre ++ rest; ending := fin |} ->
  fragments_of pre = Ok texts ->
  (forall i, (i < List.length texts)%nat ->
     Stream.post_to_connection w i = None) ->
  let connection_id := Stream.connectionId (Stream.requestContext ev) in
  Stream.lambda_handler w ev context Stream.initial =
  (fst (try_except
          (token_count <- Stream.relay_loop w connection_id rest fin
                            (Z.of_nat (List.length texts)) ;;
           Stream.send_completion w connection_id context token_count)
          (Stream.notify_error w connection_id context)
          {| Stream.invocations := [(prompt, max_tokens)];
             Stream.sends := token_attempts connection_id texts 0;
             Stream.log := [] |}),
   Ok (Stream.ok_response context)).
Proof.
  intros Hreq Hinv Hfr Hok connection_id.
  rewrite (ws_handler_relays w ev context prompt max_tokens _ Hreq).
  f_equal. fold connection_id.
  unfold try_except, Stream.relay. unfold bind at 1 3.
  unfold Stream.invoke at 1. rewrite Hinv. cbn [events ending].
  unfold bind.
  rewrite (ws_loop_prefix w connection_id pre texts rest fin 0 _ Hfr)
    by (intros i Hi; simpl; now apply Hok).
  rewrite Z.add_0_l. reflexivity.
Qed.

(** C2 (as amended).  When the posts of fragments 1..k-1 return and the post
    of fragment k is refused with [GoneException], the WebSocket handler
    pulls nothing more from the stream and logs the closed connection with
    [Tokens sent: k], but it still posts once more: the completion message,
    with [total_tokens = k].  When that post is not refused with an error
    other than gone, nothing else is posted, no error message in particular,
    and the handler returns its 200 response. *)
Theorem gone_stops_the_pull :
  forall (w : Stream.world) (ev : Stream.ws_event)
         (context : Stream.lambda_context) (prompt max_tokens : json)
         (pre : list event) (chunk : event) (post : list event)
         (fin : option exn) (texts : list json) (text : json) (gone : exn),
    ws_request ev prompt max_tokens ->
    Stream.invoke_model_with_response_stream w max_tokens prompt =
      Ok {| events := pre ++ chunk :: post; ending := fin |} ->
    fragments_of pre = Ok texts ->
    event_text chunk = Ok (Some text) ->
    (forall i, (i < List.length texts)%nat ->
       Stream.post_to_connection w i = None) ->
    Stream.post_to_connection w (List.length texts) = Some gone ->
    is_gone gone = true ->
    (forall e, Stream.post_to_connection w (Datatypes.S (List.length texts)) = Some e ->
       is_gone e = true) ->
    let k := Z.of_nat (List.length texts) + 1 in
    let connection_id := Stream.connectionId (Stream.requestContext ev) in
    let last := Stream.post_to_connection w (Datatypes.S (List.length texts)) in
    Stream.lambda_handler w ev context Stream.initial =
    ({| Stream.invocations := [(prompt, max_tokens)];
        Stream.sends :=
          token_attempts connection_id texts 0 ++
          [ws_attempt connection_id (Stream.token_message text k) (Some gone);
           ws_attempt connection_id
             (Stream.complete_message k (Stream.aws_request_id context)) last];
        Stream.log :=
          Stream.ConnectionClosed k ::
          match last with
          | None => [Stream.StreamingCompleted k]
          | Some _ => []
          end |},
     Ok (Stream.ok_response context)).
Proof.
  intros w ev context prompt max_tokens pre chunk post fin texts text gone
         Hreq Hinv Hfr Hchunk Hok Hgone Hisgone Hlast k connection_id last.
  rewrite (ws_run_prefix w ev context prompt max_tokens pre (chunk :: post)
             fin texts Hreq Hinv Hfr Hok).
  f_equal. fold connection_id.
  unfold try_except, bind. rewrite ws_loop_cons, Hchunk. cbv zeta.
  cbn [Stream.sends]. rewrite token_attempts_length, Hgone, Hisgone.
  rewrite ws_send_completion. cbv zeta.
  unfold ws_logged, ws_posted. cbn [Stream.sends Stream.invocations Stream.log app].
  rewrite length_app, token_attempts_length. cbn [List.length].
  rewrite Nat.add_1_r. fold last. fold k.
  rewrite <- app_assoc. cbn [app].
  destruct last as [e|] eqn:Hl; [|reflexivity].
  rewrite (Hlast e Hl). reflexivity.
Qed.

(** C3 (as amended).  When the posts of fragments 1..k-1 return and the post
    of fragment k fails with an error other than gone, the WebSocket handler
    leaves the loop, posts neither a further token nor the completion
    message, logs the error and posts exactly once more: the error message
    that carries [str(e)], whose own failure is only logged.  The handler
    returns its 200 response. *)
Theorem send_error_aborts_and_notifies :
  forall (w : Stream.world) (ev : Stream.ws_event)
         (context : Stream.lambda_context) (prompt max_tokens : json)
         (pre : list event) (chunk : event) (post : list event)
         (fin : option exn) (texts : list json) (text : json) (e : exn),
    ws_request ev prompt max_tokens ->
    Stream.invoke_model_with_response_stream w max_tokens prompt =
      Ok {| events := pre ++ chunk :: post; ending := fin |} ->
    fragments_of pre = Ok texts ->
    event_text chunk = Ok (Some text) ->
    (forall i, (i < List.length texts)%nat ->
       Stream.post_to_connection w i = None) ->
    Stream.post_to_connection w (List.length texts) = Some e ->
    is_gone e = false ->
    let k := Z.of_nat (List.length texts) + 1 in
    let connection_id := Stream.connectionId (Stream.requestContext ev) in
    let last := Stream.post_to_connection w (Datatypes.S (List.length texts)) in
    Stream.lambda_handler w ev context Stream.initial =
    ({| Stream.invocations := [(prompt, max_tokens)];
        Stream.sends :=
          token_attempts connection_id texts 0 ++
          [ws_attempt connection_id (Stream.token_message text k) (Some e);
           ws_attempt connection_id
             (Stream.error_message (str e) (Stream.aws_request_id context)) last];
        Stream.log :=
          Stream.StreamingError (str e) ::
          match last with
          | None => []
          | Some _ => [Stream.CouldNotSendError]
          end |},
     Ok (Stream.ok_response context)).
Proof.
  intros w ev context prompt max_tokens pre chunk post fin texts text e
         Hreq Hinv Hfr Hchunk Hok Herr Hnotgone k connection_id last.
  rewrite (ws_run_prefix w ev context prompt max_tokens pre (chunk :: post)
             fin texts Hreq Hinv Hfr Hok).
  f_equal. fold connection_id.
  unfold try_except, bind. rewrite ws_loop_cons, Hchunk. cbv zeta.
  cbn [Stream.sends]. rewrite token_attempts_length, Herr, Hnotgone.
  rewrite ws_notify_error. cbv zeta.
  unfold ws_logged, ws_posted. cbn [Stream.sends Stream.invocations Stream.log app fst].
  rewrite length_app, token_attempts_length. cbn [List.length].
  rewrite Nat.add_1_r. fold last. fold k.
  rewrite <- app_assoc. cbn [app].
  destruct last; reflexivity.
Qed.

Lemma gone_stops_the_pull_witness :
  Stream.lambda_handler closing_stream (sample_event None) sample_context
    Stream.initial =
  ({| Stream.invocations := [(JStr default_prompt, JNum 1000)];
      Stream.sends :=
        [ws_attempt "conn-1" (Stream.token_message (JStr "A") 1) None;
         ws_attempt "conn-1" (Stream.token_message (JStr "B") 2)
           (Some (ClientError "GoneException" "connection is gone"));
         ws_attempt "conn-1" (Stream.complete_message 2 "req-1")
           (Some (ClientError "GoneException" "connection is gone"))];
      Stream.log := [Stream.ConnectionClosed 2] |},
   Ok (Stream.ok_response sample_context)).
Proof.
  apply (gone_stops_the_pull closing_stream (sample_event None) sample_context
           (JStr default_prompt) (JNum 1000)
           [text_delta "A"] (text_delta "B") [text_delta "C"] None
           [JStr "A"] (JStr "B")
           (ClientError "GoneException" "connection is gone")).
  - exists (JObj []). split; reflexivity.
  - reflexivity.
  - reflexivity.
  - reflexivity.
  - intros i Hi. simpl in Hi. assert (i = 0%nat) as -> by lia. reflexivity.
  - reflexivity.
  - reflexivity.
  - intros e He. vm_compute in He. injection He as <-. reflexivity.
Defined.

(** Counterexample to C2 as stated: with the connection gone at the post of
    fragment 1, the handler makes a second post, the completion message. *)
Lemma completion_posted_after_gone :
  map (message_field "type")
    (Stream.sends
       (fst (Stream.lambda_handler closed_stream (sample_event None)
               sample_context Stream.initial))) =
    [Some (JStr "token"); Some (JStr "complete")] /\
  List.length
    (Stream.sends
       (fst (Stream.lambda_handler closed_stream (sample_event None)
               sample_context Stream.initial))) <> 1%nat.
Proof.
  split; [reflexivity | discriminate].
Qed.

Lemma send_error_aborts_and_notifies_witness :
  Stream.lambda_handler refusing_stream (sample_event None) sample_context
    Stream.initial =
  ({| Stream.invocations := [(JStr default_prompt, JNum 1000)];
      Stream.sends :=
        [ws_attempt "conn-1" (Stream.token_message (JStr "A") 1) None;
         ws_attempt "conn-1" (Stream.token_message (JStr "B") 2)
           (Some (ClientError "ForbiddenException" "forbidden"));
         ws_attempt "conn-1" (Stream.error_message "forbidden" "req-1") None];
      Stream.log := [Stream.StreamingError "forbidden"] |},
   Ok (Stream.ok_response sample_context)).
Proof.
  apply (send_error_aborts_and_notifies refusing_stream (sample_event None)
           sample_context (JStr default_prompt) (JNum 1000)
           [text_delta "A"] (text_delta "B") [text_delta "C"] None
           [JStr "A"] (JStr "B")
           (ClientError "ForbiddenException" "forbidden")).
  - exists (JObj []). split; reflexivity.
  - reflexivity.
  - reflexivity.
  - reflexivity.
  - intros i Hi. simpl in Hi. assert (i = 0%nat) as -> by lia. reflexivity.
  - reflexivity.
  - reflexivity.
Defined.

(** Counterexample to C3 as stated: after the failed post of fragment 1 the
    handler calls the sink again, with the error message. *)
Lemma error_message_posted_after_failed_send :
  map (message_field "type")
    (Stream.sends
       (fst (Stream.lambda_handler refused_stream (sample_event None)
               sample_context Stream.initial))) =
    [Some (JStr "token"); Some (JStr "error")] /\
  List.length
    (Stream.sends
       (fst (Stream.lambda_handler refused_stream (sample_event None)
               sample_context Stream.initial))) <> 1%nat.
Proof.
  split; [reflexivity | discriminate].
Qed.

(** The AppSync loop does not look at what a publish returned: with every
    publish rejected, both deltas and the completion are still published and
    the run returns [True]. *)
Lemma appsync_ignores_publish_result :
  let run := Processing.process_streaming_request
               (processing_world ["A"; "B"] None http_rejects)
               (sample_message "hi" "s-1") Processing.initial in
  snd run = Ok true /\
  map Processing.sequence (Processing.publishes (fst run)) = [1; 2; 3] /\
  map Processing.returned (Processing.publishes (fst run)) = [false; false; false].
Proof.
  repeat split; reflexivity.
Qed.

(** ** C7: the completion message that cannot be sent *)

(** C7 (as amended).  After a natural end of the stream, the AppSync
    processor returns [True] and publishes no error fragment whatever the
    publish of the completion returned; the WebSocket handler, when the post
    of the completion message is refused with [GoneException], posts nothing
    more, logs no error and returns its 200 response. *)
Theorem completion_failure_is_not_an_error :
  forall (evs : list event) (texts : list json)
         (wa : Processing.world) (message_body prompt session_id : json)
         (appsync_url region : string) (st : Processing.state)
         (ws : Stream.world) (ev : Stream.ws_event)
         (context : Stream.lambda_context) (ws_prompt max_tokens : json)
         (gone : exn),
    fragments_of evs = Ok texts ->
    appsync_request wa message_body prompt session_id appsync_url region ->
    Processing.invoke_model_with_response_stream wa
      (List.length (Processing.invocations st)) prompt =
      Ok {| events := evs; ending := None |} ->
    ws_request ev ws_prompt max_tokens ->
    Stream.invoke_model_with_response_stream ws max_tokens ws_prompt =
      Ok {| events := evs; ending := None |} ->
    (forall i, (i < List.length texts)%nat ->
       Stream.post_to_connection ws i = None) ->
    Stream.post_to_connection ws (List.length texts) = Some gone ->
    is_gone gone = true ->
    let N := Z.of_nat (List.length texts) in
    let connection_id := Stream.connectionId (Stream.requestContext ev) in
    let n := (List.length (Processing.publishes st) + List.length texts)%nat in
    Processing.process_streaming_request wa message_body st =
      ({| Processing.invocations := Processing.invocations st ++ [prompt];
          Processing.publishes :=
            Processing.publishes st ++
            token_publishes wa session_id appsync_url region texts 0
              (List.length (Processing.publishes st)) ++
            [completion_publish session_id appsync_url region N
               (Processing.reply_ok (Processing.urlopen wa n))];
          Processing.log :=
            Processing.log st ++ [Processing.StreamCompleted N] |},
       Ok true) /\
    Stream.lambda_handler ws ev context Stream.initial =
      ({| Stream.invocations := [(ws_prompt, max_tokens)];
          Stream.sends :=
            token_attempts connection_id texts 0 ++
            [ws_attempt connection_id
               (Stream.complete_message N (Stream.aws_request_id context))
               (Some gone)];
          Stream.log := [] |},
       Ok (Stream.ok_response context)).
Proof.
  intros evs texts wa message_body prompt session_id appsync_url region st
         ws ev context ws_prompt max_tokens gone
         Hfr Hreq Hinv Hwsreq Hwsinv Hsink Hgone Hisgone N connection_id n.
  split.
  - now rewrite (appsync_run wa session_id appsync_url region message_body
                   prompt st evs None texts Hreq Hinv Hfr).
  - rewrite (ws_run_to_completion ws ev context ws_prompt max_tokens evs texts
               Hwsreq Hwsinv Hfr Hsink).
    cbv zeta. now rewrite Hgone, Hisgone.
Qed.

Lemma completion_failure_is_not_an_error_witness :
  snd (Processing.process_streaming_request
         (processing_world ["A"] None http_rejects)
         (sample_message "hi" "s-1") Processing.initial) = Ok true /\
  Stream.log
    (fst (Stream.lambda_handler late_closing_stream (sample_event None)
            sample_context Stream.initial)) = [] /\
  map (message_field "type")
    (Stream.sends
       (fst (Stream.lambda_handler late_closing_stream (sample_event None)
               sample_context Stream.initial))) =
    [Some (JStr "token"); Some (JStr "complete")].
Proof.
  destruct (completion_failure_is_not_an_error
              [text_delta "A"] [JStr "A"]
              (processing_world ["A"] None http_rejects)
              (sample_message "hi" "s-1") (JStr "hi") (JStr "s-1")
              "https://appsync.example/graphql" "us-east-1" Processing.initial
              late_closing_stream (sample_event None) sample_context
              (JStr default_prompt) (JNum 1000)
              (ClientError "GoneException" "connection is gone")
              eq_refl
              (conj eq_refl (conj eq_refl (conj eq_refl (conj eq_refl eq_refl))))
              eq_refl
              (ex_intro _ (JObj []) (conj eq_refl eq_refl))
              eq_refl
              (fun i (Hi : (i < 1)%nat) =>
                 match i as j return (j < 1)%nat ->
                   Stream.post_to_connection late_closing_stream j = None with
                 | O => fun _ => eq_refl
                 | Datatypes.S j => fun H => False_ind _ (Nat.nlt_0_r j (proj2 (Nat.succ_lt_mono j 0) H))
                 end Hi)
              eq_refl eq_refl)
    as [HA HW].
  rewrite HA, HW. repeat split; reflexivity.
Defined.

(** Counterexample to C7 as stated: when the post of the completion message
    fails with an error other than gone, the handler treats the run as
    failed: it logs a streaming error and posts an error message. *)
Lemma refused_completion_is_an_error :
  Stream.log
    (fst (Stream.lambda_handler late_refusing_stream (sample_event None)
            sample_context Stream.initial)) =
    [Stream.StreamingError "forbidden"] /\
  map (message_field "type")
    (Stream.sends
       (fst (Stream.lambda_handler late_refusing_stream (sample_event None)
               sample_context Stream.initial))) =
    [Some (JStr "token"); Some (JStr "complete"); Some (JStr "error")].
Proof.
  split; reflexivity.
Qed.

(** ** C6: empty chunks *)

Lemma empty_text_chunk_skipped (chunk : event) :
  empty_text_chunk chunk = true -> event_text chunk = Ok None.
Proof.
  destruct chunk as [[v|reason|msg]|]; try discriminate.
  destruct v as [| | | | |fields]; try discriminate.
  unfold empty_text_chunk, event_text, json_loads, res_bind, py_get.
  destruct (lookup "type" fields) as [ty|]; try discriminate.
  destruct (lookup "delta" fields) as [[| | | | |delta]|]; try discriminate.
  destruct (eq_str ty "content_block_delta"); try discriminate.
  destruct (lookup "text" delta) as [[| | |s| |]|]; try discriminate.
  cbn [andb truthy]. now intros ->.
Qed.

Lemma ws_loop_skip (w : Stream.world) (connection_id : string)
    (chunk : event) (pre : list event) :
  event_text chunk = Ok None ->
  forall (post : list event) (fin : option exn) (c : Z) (st : Stream.state),
    Stream.relay_loop w connection_id (pre ++ chunk :: post) fin c st =
    Stream.relay_loop w connection_id (pre ++ post) fin c st.
Proof.
  intros Hskip. induction pre as [|ev pre IH]; intros post fin c st.
  - cbn [app]. now rewrite ws_loop_cons, Hskip.
  - rewrite <- !app_comm_cons, !ws_loop_cons.
    destruct (event_text ev) as [[text|]|e]; auto.
    cbv zeta.
    destruct (Stream.post_to_connection w (List.length (Stream.sends st)));
      auto.
Qed.

Lemma appsync_loop_skip (w : Processing.world) (session_id : json)
    (appsync_url region : string) (chunk : event) (pre : list event) :
  event_text chunk = Ok None ->
  forall (post : list event) (fin : option exn) (c : Z) (st : Processing.state),
    Processing.relay_loop w session_id appsync_url region
      (pre ++ chunk :: post) fin c st =
    Processing.relay_loop w session_id appsync_url region
      (pre ++ post) fin c st.
Proof.
  intros Hskip. induction pre as [|ev pre IH]; intros post fin c st.
  - cbn [app]. now rewrite appsync_loop_cons, Hskip.
  - rewrite <- !app_comm_cons, !appsync_loop_cons.
    destruct (event_text ev) as [[text|]|e]; auto.
Qed.

(** C6.  A content delta whose text is the empty string is dropped by the
    filter of both relay loops: wherever it stands in the stream, the loop
    runs exactly as on the stream without it, from any counter and any
    state, so the chunk takes no sequence number and causes no send. *)
Theorem empty_chunk_leaves_no_trace :
  forall chunk : event,
    empty_text_chunk chunk = true ->
    event_text chunk = Ok None /\
    (forall (w : Stream.world) (connection_id : string)
            (pre post : list event) (fin : option exn) (c : Z)
            (st : Stream.state),
       Stream.relay_loop w connection_id (pre ++ chunk :: post) fin c st =
       Stream.relay_loop w connection_id (pre ++ post) fin c st) /\
    (forall (w : Processing.world) (session_id : json)
            (appsync_url region : string)
            (pre post : list event) (fin : option exn) (c : Z)
            (st : Processing.state),
       Processing.relay_loop w session_id appsync_url region
         (pre ++ chunk :: post) fin c st =
       Processing.relay_loop w session_id appsync_url region
         (pre ++ post) fin c st).
Proof.
  intros chunk Hempty.
  pose proof (empty_text_chunk_skipped chunk Hempty) as Hskip.
  split; [exact Hskip|]. split; intros.
  - now apply ws_loop_skip.
  - now apply appsync_loop_skip.
Qed.

Lemma empty_chunk_leaves_no_trace_witness :
  Stream.relay_loop hello_stream "conn-1"
    ([text_delta "Hel"] ++ text_delta EmptyString :: [text_delta "lo"])
    None 0 Stream.initial =
  (ws_posted Stream.initial
     [ws_attempt "conn-1" (Stream.token_message (JStr "Hel") 1) None;
      ws_attempt "conn-1" (Stream.token_message (JStr "lo") 2) None],
   Ok 2) /\
  snd (Processing.relay_loop hello_processing (JStr "s-1")
         "https://appsync.example/graphql" "us-east-1"
         ([text_delta "Hel"] ++ text_delta EmptyString :: [text_delta "lo"])
         None 0 Processing.initial) = Ok 2.
Proof.
  destruct (empty_chunk_leaves_no_trace (text_delta EmptyString) eq_refl)
    as (_ & Hws & Happsync).
  rewrite Hws, Happsync. split; reflexivity.
Defined.

(** ** C4 and C5: the error fragment *)

(** What [process_streaming_request] does when the iteration over the stream
    raises after k fragments: one more publish, the error fragment with
    [is_complete = True], the text of the error and the fixed sequence 999,
    whose result is not looked at; the run returns [False]. *)
Lemma appsync_source_failure (w : Processing.world)
    (message_body prompt session_id : json) (appsync_url region : string)
    (st : Processing.state) (evs : list event) (texts : list json) (e : exn) :
  appsync_request w message_body prompt session_id appsync_url region ->
  Processing.invoke_model_with_response_stream w
    (List.length (Processing.invocations st)) prompt =
    Ok {| events := evs; ending := Some e |} ->
  fragments_of evs = Ok texts ->
  Processing.process_streaming_request w message_body st =
  ({| Processing.invocations := Processing.invocations st ++ [prompt];
      Processing.publishes :=
        Processing.publishes st ++
        token_publishes w session_id appsync_url region texts 0
          (List.length (Processing.publishes st)) ++
        [error_publish session_id appsync_url region e
           (Processing.reply_ok
              (Processing.urlopen w
                 (List.length (Processing.publishes st) + List.length texts)))];
      Processing.log := Processing.log st ++ [Processing.StreamError (str e)] |},
   Ok false).
Proof.
  intros Hreq Hinv Hfr.
  now rewrite (appsync_run w session_id appsync_url region message_body prompt
                 st evs (Some e) texts Hreq Hinv Hfr).
Qed.

(** C4 (the code at the failing input).  On a stream that raises after 999
    text deltas the processor makes 1000 publish calls and returns [False];
    the 999th call is the ordinary fragment with sequence 999 and the 1000th
    is the error fragment, which carries the same sequence 999. *)
Theorem error_fragment_reuses_sequence_999 :
  let run := Processing.process_streaming_request long_failing_processing
               (sample_message "hi" "s-1") Processing.initial in
  snd run = Ok false /\
  List.length (Processing.publishes (fst run)) = 1000%nat /\
  nth_error (Processing.publishes (fst run)) 998 =
    Some {| Processing.session_id := JStr "s-1";
            Processing.token := JStr "x";
            Processing.is_complete := false;
            Processing.sequence := 999;
            Processing.appsync_url := "https://appsync.example/graphql";
            Processing.region := "us-east-1";
            Processing.returned := true |} /\
  nth_error (Processing.publishes (fst run)) 999 =
    Some (error_publish (JStr "s-1") "https://appsync.example/graphql"
            "us-east-1" (OtherException "upstream stalled") true) /\
  Processing.sequence
    (error_publish (JStr "s-1") "https://appsync.example/graphql"
       "us-east-1" (OtherException "upstream stalled") true) = 999.
Proof.
  vm_compute. repeat split; reflexivity.
Qed.

(** C5 (the code at the failing input).  On the same stream the sequence
    numbers of the publish calls, all of them accepted by AppSync, are not
    strictly increasing: the error fragment that ends the run carries 999
    after the fragment numbered 999. *)
Theorem sequence_not_increasing_on_long_failed_run :
  let run := Processing.process_streaming_request long_failing_processing
               (sample_message "hi" "s-1") Processing.initial in
  Forall (fun call => Processing.returned call = true)
    (Processing.publishes (fst run)) /\
  strictly_increasing
    (map Processing.sequence (Processing.publishes (fst run))) = false /\
  map Processing.sequence (skipn 998 (Processing.publishes (fst run))) =
    [999; 999].
Proof.
  cbv zeta. split; [|split].
  - apply Forall_forall. intros call Hin.
    assert (Hall : forallb Processing.returned
              (Processing.publishes
                 (fst (Processing.process_streaming_request
                         long_failing_processing (sample_message "hi" "s-1")
                         Processing.initial))) = true) by (vm_compute; reflexivity).
    rewrite forallb_forall in Hall. apply Hall. exact Hin.
  - vm_compute. reflexivity.
  - vm_compute. reflexivity.
Qed.

(** ** C8: the batch handler *)

(** [process_streaming_request] raises only before its [try] block, and
    never a [JSONDecodeError]. *)
Lemma process_raises_no_decode_error (w : Processing.world)
    (message_body : json) (st : Processing.state) (e : exn) :
  snd (Processing.process_streaming_request w message_body st) = Raise e ->
  forall msg, e <> JSONDecodeError msg.
Proof.
  unfold Processing.process_streaming_request.
  unfold bind at 1. unfold lift at 1.
  destruct (py_getitem message_body "prompt") as [prompt|e1] eqn:Hp.
  2:{ cbn [snd]. intros [= <-] msg. unfold py_getitem in Hp.
      destruct message_body; try (injection Hp as <-; discriminate).
      destruct (lookup "prompt" fields); [discriminate|].
      injection Hp as <-; discriminate. }
  unfold bind at 1. unfold lift at 1.
  destruct (py_getitem message_body "sessionId") as [session_id|e1] eqn:Hs.
  2:{ cbn [snd]. intros [= <-] msg. unfold py_getitem in Hs.
      destruct message_body; try (injection Hs as <-; discriminate).
      destruct (lookup "sessionId" fields); [discriminate|].
      injection Hs as <-; discriminate. }
  unfold bind at 1. unfold lift at 1. unfold Processing.getenv at 1.
  destruct (Processing.environ w "APPSYNC_API_URL") as [url|].
  2:{ cbn [snd]. intros [= <-] msg. discriminate. }
  unfold bind at 1. unfold lift at 1. unfold Processing.getenv at 1.
  destruct (Processing.environ w "AWS_REGION") as [region|].
  2:{ cbn [snd]. intros [= <-] msg. discriminate. }
  unfold bind at 1. unfold lift at 1.
  destruct (py_slice prompt) as [[]|e1] eqn:Hsl.
  2:{ cbn [snd]. intros [= <-] msg. unfold py_slice in Hsl.
      destruct prompt; try discriminate; injection Hsl as <-; discriminate. }
  unfold try_except.
  match goal with
  | |- context [match ?m ?s with (_, _) => _ end] =>
      destruct (m s) as [st1 [b|e1]]
  end.
  - cbn [snd]. discriminate.
  - unfold bind, Processing.print, modify, Processing.publish_token_to_appsync,
      ret. cbn [snd]. discriminate.
Qed.

(** One record, by what its body and its processing do. *)
Lemma handle_record_cases (w : Processing.world)
    (record : Processing.sqs_record) (failed : list string)
    (st : Processing.state) :
  Processing.handle_record w record failed st =
  let message_id := Processing.messageId record in
  match Processing.body record with
  | Malformed reason =>
      (logged st [Processing.MessageUnparsable message_id reason], Ok failed)
  | TooDeep msg =>
      (logged st [Processing.MessageUnexpectedError message_id msg],
       Ok (failed ++ [message_id])%list)
  | Parses message_body =>
      let run := Processing.process_streaming_request w message_body st in
      match snd run with
      | Ok true => (fst run, Ok failed)
      | Ok false =>
          (logged (fst run) [Processing.MessageFailed message_id],
           Ok (failed ++ [message_id])%list)
      | Raise e =>
          (logged (fst run)
             [Processing.MessageUnexpectedError message_id (str e)],
           Ok (failed ++ [message_id])%list)
      end
  end.
Proof.
  unfold Processing.handle_record, try_except.
  unfold bind at 1. unfold lift.
  destruct (Processing.body record) as [message_body|reason|msg];
    cbn [json_loads]; try reflexivity.
  unfold bind at 1.
  pose proof (process_raises_no_decode_error w message_body st) as Hno.
  cbv zeta.
  destruct (Processing.process_streaming_request w message_body st)
    as [st1 [[|]|e]]; cbn [snd fst negb] in *.
  - reflexivity.
  - reflexivity.
  - destruct e; try reflexivity.
    exfalso. exact (Hno _ eq_refl msg eq_refl).
Qed.

(** One record: the list grows by the contribution of the record, and the
    state the record leaves does not depend on the list. *)
Lemma handle_record_spec (w : Processing.world)
    (record : Processing.sqs_record) (failed : list string)
    (st : Processing.state) :
  Processing.handle_record w record failed st =
  (fst (Processing.handle_record w record [] st),
   Ok (failed ++ contribution w record st)%list).
Proof.
  rewrite !handle_record_cases. unfold contribution. cbv zeta.
  destruct (Processing.body record) as [message_body|reason|msg].
  2:{ cbn [fst]. now rewrite app_nil_r. }
  2:{ reflexivity. }
  destruct (snd (Processing.process_streaming_request w message_body st))
    as [[|]|e]; cbn [fst]; try reflexivity.
  now rewrite app_nil_r.
Qed.

Lemma handle_records_spec (w : Processing.world)
    (records : list Processing.sqs_record) :
  forall (failed : list string) (st : Processing.state),
    Processing.handle_records w records failed st =
    (fst (Processing.handle_records w records [] st),
     Ok (failed ++ contributions w records st)%list).
Proof.
  induction records as [|record rest IH]; intros failed st.
  - cbn. unfold ret. now rewrite app_nil_r.
  - cbn [Processing.handle_records contributions]. unfold bind.
    rewrite (handle_record_spec w record failed).
    rewrite (handle_record_spec w record []).
    rewrite (IH (failed ++ contribution w record st)%list).
    rewrite (IH ([] ++ contribution w record st)%list).
    cbn [fst]. now rewrite app_assoc.
Qed.

(** The state after a prefix of the batch is the state the next record
    starts in. *)
Lemma handle_records_app (w : Processing.world)
    (pre : list Processing.sqs_record) :
  forall (post : list Processing.sqs_record) (st : Processing.state),
    fst (Processing.handle_records w (pre ++ post) [] st) =
    fst (Processing.handle_records w post []
           (fst (Processing.handle_records w pre [] st))) /\
    contributions w (pre ++ post) st =
    (contributions w pre st ++
     contributions w post (fst (Processing.handle_records w pre [] st)))%list.
Proof.
  induction pre as [|record pre IH]; intros post st.
  - split; reflexivity.
  - cbn [app Processing.handle_records contributions]. unfold bind.
    rewrite (handle_record_spec w record []).
    rewrite !(handle_records_spec w _ ([] ++ contribution w record st)%list).
    cbn [fst]. destruct (IH post (fst (Processing.handle_record w record [] st)))
      as [Hst Hc].
    split; [exact Hst|]. now rewrite Hc, app_assoc.
Qed.

Lemma contribution_ids (w : Processing.world)
    (record : Processing.sqs_record) (st : Processing.state) (id : string) :
  In id (contribution w record st) -> id = Processing.messageId record.
Proof.
  unfold contribution.
  destruct (Processing.body record) as [message_body| |];
    [|intros []|cbn; intuition].
  destruct (snd (Processing.process_streaming_request w message_body st))
    as [[|]|e]; cbn; intuition.
Qed.

Lemma contributions_ids (w : Processing.world)
    (records : list Processing.sqs_record) :
  forall (st : Processing.state) (id : string),
    In id (contributions w records st) ->
    In id (map Processing.messageId records).
Proof.
  induction records as [|record rest IH]; intros st id; cbn; [tauto|].
  rewrite in_app_iff. intros [H|H].
  - left. symmetry. now apply (contribution_ids w record st).
  - right. exact (IH _ id H).
Qed.

Lemma firstn_length_app {A} (xs ys : list A) :
  firstn (List.length xs) (xs ++ ys) = xs.
Proof.
  induction xs as [|x xs IH]; cbn; [reflexivity|]. now rewrite IH.
Qed.

Lemma contribution_cases (w : Processing.world)
    (record : Processing.sqs_record) (st : Processing.state) :
  contribution w record st = [] \/
  contribution w record st = [Processing.messageId record].
Proof.
  unfold contribution.
  destruct (Processing.body record) as [message_body| |];
    [|now left|now right].
  destruct (snd (Processing.process_streaming_request w message_body st))
    as [[|]|e]; auto.
Qed.

Lemma contributions_picked (w : Processing.world)
    (records : list Processing.sqs_record) :
  forall st : Processing.state,
    picked_from (contributions w records st)
      (map Processing.messageId records).
Proof.
  induction records as [|record rest IH]; intros st; cbn [contributions map].
  - constructor.
  - destruct (contribution_cases w record st) as [-> | ->]; cbn [app].
    + apply picked_skip, IH.
    + apply picked_take, IH.
Qed.

(** C8 (as amended).  The handler returns its list of batch item failures
    and never raises, and every record of the batch adds its own entries to
    that list, between those of the records before it and those of the
    records after it: no entry when [json.loads] raises [JSONDecodeError] on
    its body or when its processing returns [True]; exactly one entry, its
    message id, when its processing returns [False] or raises, and also when
    [json.loads] raises another exception on the body, as [RecursionError]
    on a text that is nested too deep. *)
Theorem failures_follow_the_except_clauses :
  forall (w : Processing.world) (ev : Processing.sqs_event)
         (pre : list Processing.sqs_record) (record : Processing.sqs_record)
         (post : list Processing.sqs_record),
    Processing.event_records ev = (pre ++ record :: post)%list ->
    exists st' earlier later,
      Processing.lambda_handler w ev Processing.initial =
        (st',
         Ok {| Processing.batchItemFailures :=
                 (earlier ++
                  match Processing.body record with
                  | Malformed _ => []
                  | TooDeep _ => [Processing.messageId record]
                  | Parses message_body =>
                      match snd (Processing.process_streaming_request w
                                   message_body
                                   (state_before w ev (List.length pre))) with
                      | Ok true => []
                      | Ok false => [Processing.messageId record]
                      | Raise _ => [Processing.messageId record]
                      end
                  end ++ later)%list |}) /\
      picked_from earlier (map Processing.messageId pre) /\
      picked_from later (map Processing.messageId post).
Proof.
  intros w ev pre record post Hsplit.
  exists (fst (Processing.handle_records w (Processing.event_records ev) []
                 Processing.initial)),
         (contributions w pre Processing.initial),
         (contributions w post
            (fst (Processing.handle_record w record []
                    (fst (Processing.handle_records w pre []
                            Processing.initial))))).
  split; [|split; apply contributions_picked].
  unfold Processing.lambda_handler, bind.
  rewrite handle_records_spec. cbn [app]. unfold ret.
  f_equal. f_equal. f_equal.
  unfold state_before. rewrite Hsplit, firstn_length_app.
  destruct (handle_records_app w pre (record :: post) Processing.initial)
    as [_ ->].
  reflexivity.
Qed.

Lemma failures_follow_the_except_clauses_witness :
  snd (Processing.lambda_handler hello_processing sample_batch
         Processing.initial) =
    Ok {| Processing.batchItemFailures := ["m-2"; "m-4"] |} /\
  (exists st' earlier later,
      Processing.lambda_handler hello_processing sample_batch
        Processing.initial =
        (st',
         Ok {| Processing.batchItemFailures :=
                 (earlier ++ [] ++ later)%list |}) /\
      picked_from earlier (map Processing.messageId []) /\
      picked_from later (map Processing.messageId [
        {| Processing.messageId := "m-2";
           Processing.body := Parses (JObj [("prompt", JStr "hi")]) |};
        {| Processing.messageId := "m-3";
           Processing.body := Parses (sample_message "hi" "s-3") |};
        {| Processing.messageId := "m-4";
           Processing.body :=
             TooDeep "maximum recursion depth exceeded" |}])).
Proof.
  split; [reflexivity|].
  apply (failures_follow_the_except_clauses hello_processing sample_batch []
           {| Processing.messageId := "m-1";
              Processing.body :=
                Malformed "Expecting value: line 1 column 1 (char 0)" |}).
  reflexivity.
Defined.

(** Counterexample to C8 as stated: a body of two thousand opening brackets
    is not parseable JSON, [json.loads] raises [RecursionError] on it, and
    the handler marks the message as failed. *)
Lemma deeply_nested_body_is_marked_failed :
  snd (Processing.lambda_handler hello_processing
         {| Processing.Records := Some
              [{| Processing.messageId := "m-1";
                  Processing.body :=
                    TooDeep "maximum recursion depth exceeded" |}] |}
         Processing.initial) =
  Ok {| Processing.batchItemFailures := ["m-1"] |}.
Proof.
  reflexivity.
Qed.

(** ** C9 and C10: the entry points *)

(** The whole run of the session-start resolver once the prompt can be
    previewed and the queue is configured. *)
Lemma request_run (w : Request.world) (event : list (string * json))
    (context : Request.lambda_context) (prompt : json) (queue_url : string)
    (st : Request.state) :
  py_get (Request.event_arguments event) "prompt" (JStr default_prompt) =
    Ok prompt ->
  py_slice prompt = Ok tt ->
  Request.getenv w "STREAMING_QUEUE_URL" = Ok queue_url ->
  let now := Request.utcnow_isoformat w (Request.clock_reads st) in
  let later := Request.utcnow_isoformat w (Datatypes.S (Request.clock_reads st)) in
  let message := queued_message w context prompt now in
  Request.lambda_handler w event context st =
  match Request.send_message w queue_url message with
  | Ok sqs_message_id =>
      ({| Request.sent := Request.sent st ++ [(queue_url, message)];
          Request.clock_reads := Datatypes.S (Datatypes.S (Request.clock_reads st));
          Request.log := Request.log st ++ [Request.MessageSent sqs_message_id] |},
       Ok (started_response (Request.uuid4 w) later))
  | Raise e =>
      ({| Request.sent := Request.sent st ++ [(queue_url, message)];
          Request.clock_reads := Datatypes.S (Datatypes.S (Request.clock_reads st));
          Request.log := Request.log st ++ [Request.SendFailed (str e)] |},
       Ok (failed_response (Request.uuid4 w) later e))
  end.
Proof.
  intros Hprompt Hslice Henv now later message.
  unfold Request.lambda_handler.
  unfold bind at 1. unfold lift at 1. rewrite Hprompt.
  unfold bind at 1. unfold lift at 1. rewrite Henv.
  unfold bind at 1. unfold lift at 1. rewrite Hslice.
  unfold try_except. unfold bind at 1. unfold Request.utcnow at 1.
  unfold bind at 1. unfold Request.sqs_send at 1.
  cbn [Request.sent Request.clock_reads Request.log].
  unfold message, queued_message, now.
  destruct (Request.send_message w queue_url _) as [id|e]; reflexivity.
Qed.

(** C9 (as amended).  For a session-start request that carries a prompt
    string, with the queue configured, the resolver returns a dict whose
    [sessionId] is the generated uuid string; when the enqueue succeeds its
    [status] is ["streaming_started"] and it has a [message] field; when the
    enqueue raises its [status] is ["error"] and the description sits in an
    [error] field, with no [message] field. *)
Theorem session_start_response :
  forall (w : Request.world) (event : list (string * json))
         (context : Request.lambda_context) (prompt queue_url : string),
    py_get (Request.event_arguments event) "prompt" (JStr default_prompt) =
      Ok (JStr prompt) ->
    Request.getenv w "STREAMING_QUEUE_URL" = Ok queue_url ->
    exists st' response,
      Request.lambda_handler w event context Request.initial =
        (st', Ok response) /\
      field "sessionId" response = Some (JStr (Request.uuid4 w)) /\
      match Request.send_message w queue_url
              (queued_message w context (JStr prompt)
                 (Request.utcnow_isoformat w 0)) with
      | Ok _ =>
          field "status" response = Some (JStr "streaming_started") /\
          field "message" response =
            Some (JStr "AI streaming session initiated. Subscribe to receive real-time tokens.") /\
          field "error" response = None
      | Raise e =>
          field "status" response = Some (JStr "error") /\
          field "message" response = None /\
          field "error" response =
            Some (JStr ("Failed to initiate streaming: " ++ str e))
      end.
Proof.
  intros w event context prompt queue_url Hprompt Henv.
  rewrite (request_run w event context (JStr prompt) queue_url Request.initial
             Hprompt eq_refl Henv).
  cbv zeta. cbn [Request.clock_reads Request.initial].
  destruct (Request.send_message w queue_url _) as [id|e];
    eexists; eexists; (split; [reflexivity|]); repeat split; reflexivity.
Qed.

Lemma session_start_response_witness :
  exists st' response,
    Request.lambda_handler (request_world (Ok "sqs-1")) (start_event "What is AWS Lambda?")
      request_context Request.initial = (st', Ok response) /\
    field "sessionId" response =
      Some (JStr "123e4567-e89b-12d3-a456-426614174000") /\
    field "status" response = Some (JStr "streaming_started").
Proof.
  destruct (session_start_response (request_world (Ok "sqs-1"))
              (start_event "What is AWS Lambda?") request_context
              "What is AWS Lambda?" "https://sqs.example/queue"
              eq_refl eq_refl)
    as (st' & response & Hrun & Hid & Hstatus & _).
  exists st', response. repeat split; assumption.
Defined.

(** Counterexample to C9 as stated: on a successful enqueue the status of
    the returned dict is ["streaming_started"], which is neither ["started"]
    nor ["error"]. *)
Lemma status_is_streaming_started :
  exists st' response,
    Request.lambda_handler (request_world (Ok "sqs-1"))
      (start_event "What is AWS Lambda?") request_context Request.initial =
      (st', Ok response) /\
    field "status" response = Some (JStr "streaming_started") /\
    field "status" response <> Some (JStr "started") /\
    field "status" response <> Some (JStr "error").
Proof.
  exists (fst (Request.lambda_handler (request_world (Ok "sqs-1"))
                 (start_event "What is AWS Lambda?") request_context
                 Request.initial)),
         (started_response "123e4567-e89b-12d3-a456-426614174000"
            "2024-01-01T00:00:00").
  split; [reflexivity|].
  split; [reflexivity|]. split; discriminate.
Qed.

(** The WebSocket run on a stream whose events all pass, when every post
    returns: the tokens and the completion message on a natural end, the
    tokens and the error message when the iteration raises. *)
Lemma ws_run_whole (w : Stream.world) (ev : Stream.ws_event)
    (context : Stream.lambda_context) (prompt max_tokens : json)
    (evs : list event) (fin : option exn) (texts : list json) :
  ws_request ev prompt max_tokens ->
  Stream.invoke_model_with_response_stream w max_tokens prompt =
    Ok {| events := evs; ending := fin |} ->
  fragments_of evs = Ok texts ->
  (forall i, (i <= List.length texts)%nat ->
     Stream.post_to_connection w i = None) ->
  let connection_id := Stream.connectionId (Stream.requestContext ev) in
  let total := Z.of_nat (List.length texts) in
  Stream.lambda_handler w ev context Stream.initial =
  (match fin with
   | None =>
       {| Stream.invocations := [(prompt, max_tokens)];
          Stream.sends :=
            token_attempts connection_id texts 0 ++
            [ws_attempt connection_id
               (Stream.complete_message total (Stream.aws_request_id context))
               None];
          Stream.log := [Stream.StreamingCompleted total] |}
   | Some e =>
       {| Stream.invocations := [(prompt, max_tokens)];
          Stream.sends :=
            token_attempts connection_id texts 0 ++
            [ws_attempt connection_id
               (Stream.error_message (str e) (Stream.aws_request_id context))
               None];
          Stream.log := [Stream.StreamingError (str e)] |}
   end, Ok (Stream.ok_response context)).
Proof.
  intros Hreq Hinv Hfr Hok connection_id total.
  assert (Htokens : forall i, (i < List.length texts)%nat ->
                      Stream.post_to_connection w i = None)
    by (intros i Hi; apply Hok; lia).
  destruct fin as [e|].
  - rewrite <- (app_nil_r evs) in Hinv.
    rewrite (ws_run_prefix w ev context prompt max_tokens evs [] (Some e) texts
               Hreq Hinv Hfr Htokens).
    f_equal. fold connection_id.
    unfold try_except, bind. cbn [Stream.relay_loop]. unfold raise.
    rewrite ws_notify_error. cbv zeta.
    unfold ws_logged, ws_posted.
    cbn [Stream.sends Stream.invocations Stream.log app fst].
    rewrite token_attempts_length.
    now rewrite (Hok (List.length texts)) by lia.
  - rewrite (ws_run_to_completion w ev context prompt max_tokens evs texts
               Hreq Hinv Hfr Htokens).
    cbv zeta. now rewrite (Hok (List.length texts)) by lia.
Qed.

(** C10.  A request that omits the prompt is not rejected by either entry
    point.  The session-start resolver runs exactly as on the same request
    with the prompt ["Hello, how are you?"] and, with the queue configured,
    enqueues a message that carries that prompt and returns; the processing
    Lambda run on that message invokes Bedrock with that prompt and relays
    the stream it gets: every fragment, then the completion fragment, or the
    error fragment when the stream raises.  The WebSocket handler runs
    exactly as on the same body with that prompt, does not answer with its
    400 response and, once the options of the body are read, invokes Bedrock
    with that prompt and relays the stream it gets: every token, then the
    completion message, or the error message when the stream raises, and
    returns its 200 response. *)
Theorem missing_prompt_defaults :
  forall (wr : Request.world) (start : list (string * json))
         (rcontext : Request.lambda_context) (arguments : list (string * json))
         (ws : Stream.world) (ev : Stream.ws_event)
         (context : Stream.lambda_context) (fields : list (string * json)),
    Request.event_arguments start = JObj arguments ->
    lookup "prompt" arguments = None ->
    Stream.event_body ev = Parses (JObj fields) ->
    lookup "prompt" fields = None ->
    (forall st,
       Request.lambda_handler wr start rcontext st =
       Request.lambda_handler wr
         (("arguments", JObj (("prompt", JStr default_prompt) :: arguments))
            :: start) rcontext st) /\
    (forall st queue_url,
       Request.getenv wr "STREAMING_QUEUE_URL" = Ok queue_url ->
       exists response,
         snd (Request.lambda_handler wr start rcontext st) = Ok response /\
         Request.sent (fst (Request.lambda_handler wr start rcontext st)) =
           (Request.sent st ++
            [(queue_url,
              queued_message wr rcontext (JStr default_prompt)
                (Request.utcnow_isoformat wr (Request.clock_reads st)))])%list) /\
    (forall st,
       Stream.lambda_handler ws ev context st =
       Stream.lambda_handler ws
         (with_body ev (("prompt", JStr default_prompt) :: fields)) context st) /\
    (forall st,
       snd (Stream.lambda_handler ws ev context st) <>
       Ok Stream.invalid_json_response) /\
    (forall st options max_tokens,
       py_get (JObj fields) "options" (JObj []) = Ok options ->
       py_get options "max_tokens" (JNum 1000) = Ok max_tokens ->
       Stream.lambda_handler ws ev context st =
       (fst (try_except
               (Stream.relay ws (Stream.connectionId (Stream.requestContext ev))
                  context max_tokens (JStr default_prompt))
               (Stream.notify_error ws
                  (Stream.connectionId (Stream.requestContext ev)) context) st),
        Ok (Stream.ok_response context))) /\
    (forall options max_tokens (evs : list event) (fin : option exn)
            (texts : list json),
       py_get (JObj fields) "options" (JObj []) = Ok options ->
       py_get options "max_tokens" (JNum 1000) = Ok max_tokens ->
       Stream.invoke_model_with_response_stream ws max_tokens
         (JStr default_prompt) = Ok {| events := evs; ending := fin |} ->
       fragments_of evs = Ok texts ->
       (forall i, (i <= List.length texts)%nat ->
          Stream.post_to_connection ws i = None) ->
       let connection_id := Stream.connectionId (Stream.requestContext ev) in
       let total := Z.of_nat (List.length texts) in
       Stream.lambda_handler ws ev context Stream.initial =
       (match fin with
        | None =>
            {| Stream.invocations := [(JStr default_prompt, max_tokens)];
               Stream.sends :=
                 token_attempts connection_id texts 0 ++
                 [ws_attempt connection_id
                    (Stream.complete_message total
                       (Stream.aws_request_id context)) None];
               Stream.log := [Stream.StreamingCompleted total] |}
        | Some e =>
            {| Stream.invocations := [(JStr default_prompt, max_tokens)];
               Stream.sends :=
                 token_attempts connection_id texts 0 ++
                 [ws_attempt connection_id
                    (Stream.error_message (str e)
                       (Stream.aws_request_id context)) None];
               Stream.log := [Stream.StreamingError (str e)] |}
        end, Ok (Stream.ok_response context))) /\
    (forall (queue_url sqs_id : string) (wp : Processing.world)
            (appsync_url region : string) (st : Processing.state)
            (evs : list event) (fin : option exn) (texts : list json),
       Request.getenv wr "STREAMING_QUEUE_URL" = Ok queue_url ->
       let queued := queued_message wr rcontext (JStr default_prompt)
                       (Request.utcnow_isoformat wr 0) in
       Request.send_message wr queue_url queued = Ok sqs_id ->
       Processing.getenv wp "APPSYNC_API_URL" = Ok appsync_url ->
       Processing.getenv wp "AWS_REGION" = Ok region ->
       Processing.invoke_model_with_response_stream wp
         (List.length (Processing.invocations st)) (JStr default_prompt) =
         Ok {| events := evs; ending := fin |} ->
       fragments_of evs = Ok texts ->
       let session_id := JStr (Request.uuid4 wr) in
       let tokens := token_publishes wp session_id appsync_url region texts 0
                       (List.length (Processing.publishes st)) in
       let n := (List.length (Processing.publishes st) + List.length texts)%nat in
       let total := Z.of_nat (List.length texts) in
       Request.sent
         (fst (Request.lambda_handler wr start rcontext Request.initial)) =
         [(queue_url, queued)] /\
       Processing.process_streaming_request wp queued st =
       match fin with
       | None =>
           ({| Processing.invocations :=
                 Processing.invocations st ++ [JStr default_prompt];
               Processing.publishes :=
                 Processing.publishes st ++ tokens ++
                 [completion_publish session_id appsync_url region total
                    (Processing.reply_ok (Processing.urlopen wp n))];
               Processing.log :=
                 Processing.log st ++ [Processing.StreamCompleted total] |},
            Ok true)
       | Some e =>
           ({| Processing.invocations :=
                 Processing.invocations st ++ [JStr default_prompt];
               Processing.publishes :=
                 Processing.publishes st ++ tokens ++
                 [error_publish session_id appsync_url region e
                    (Processing.reply_ok (Processing.urlopen wp n))];
               Processing.log :=
                 Processing.log st ++ [Processing.StreamError (str e)] |},
            Ok false)
       end).
Proof.
  intros wr start rcontext arguments ws ev context fields
         Hargs Hnone Hbody Hfields.
  assert (Hprompt : py_get (Request.event_arguments start) "prompt"
                      (JStr default_prompt) = Ok (JStr default_prompt)).
  { rewrite Hargs. unfold py_get. now rewrite Hnone. }
  assert (Hread : forall options max_tokens,
             py_get (JObj fields) "options" (JObj []) = Ok options ->
             py_get options "max_tokens" (JNum 1000) = Ok max_tokens ->
             Stream.read_request (JObj fields) =
               Ok (JStr default_prompt, max_tokens)).
  { intros options max_tokens Hopt Hmax. unfold Stream.read_request.
    unfold py_get at 1. rewrite Hfields. cbn [res_bind].
    rewrite Hopt. cbn [res_bind]. rewrite Hmax. reflexivity. }
  assert (Hreq : forall options max_tokens,
             py_get (JObj fields) "options" (JObj []) = Ok options ->
             py_get options "max_tokens" (JNum 1000) = Ok max_tokens ->
             ws_request ev (JStr default_prompt) max_tokens).
  { intros options max_tokens Hopt Hmax. exists (JObj fields).
    split; [exact Hbody | now apply (Hread options)]. }
  split; [|split; [|split; [|split; [|split; [|split]]]]].
  - intros st. unfold Request.lambda_handler.
    rewrite Hprompt. reflexivity.
  - intros st queue_url Henv.
    rewrite (request_run wr start rcontext (JStr default_prompt) queue_url st
               Hprompt eq_refl Henv).
    cbv zeta.
    destruct (Request.send_message wr queue_url _) as [id|e];
      eexists; split; reflexivity.
  - intros st. unfold Stream.lambda_handler. rewrite Hbody.
    unfold with_body, Stream.event_body.
    cbn [Stream.body Stream.requestContext json_loads].
    assert (Hsame : Stream.read_request (JObj fields) =
                    Stream.read_request
                      (JObj (("prompt", JStr default_prompt) :: fields))).
    { unfold Stream.read_request. unfold py_get at 1 4.
      rewrite Hfields. reflexivity. }
    now rewrite Hsame.
  - intros st. unfold Stream.lambda_handler. rewrite Hbody.
    cbn [json_loads]. unfold bind at 1. unfold lift.
    destruct (Stream.read_request (JObj fields)) as [[prompt max_tokens]|e];
      [|cbn [snd]; discriminate].
    unfold bind, try_except, ret.
    destruct (Stream.relay _ _ _ _ _ st) as [st' [[]|e]].
    + cbn [snd]. discriminate.
    + rewrite ws_notify_error. cbn [snd]. discriminate.
  - intros st options max_tokens Hopt Hmax.
    apply ws_handler_relays. now apply (Hreq options).
  - intros options max_tokens evs fin texts Hopt Hmax Hinv Hfr Hok.
    apply (ws_run_whole ws ev context (JStr default_prompt) max_tokens evs fin
             texts (Hreq options max_tokens Hopt Hmax) Hinv Hfr Hok).
  - intros queue_url sqs_id wp appsync_url region st evs fin texts
           Henv queued Hsend Hurl Hregion Hinv Hfr session_id tokens n total.
    split.
    + rewrite (request_run wr start rcontext (JStr default_prompt) queue_url
                 Request.initial Hprompt eq_refl Henv).
      cbv zeta. cbn [Request.clock_reads Request.initial].
      fold queued. now rewrite Hsend.
    + assert (Hfieldsok : appsync_request wp queued (JStr default_prompt)
                            session_id appsync_url region)
        by (repeat split; assumption).
      now rewrite (appsync_run wp session_id appsync_url region queued
                     (JStr default_prompt) st evs fin texts Hfieldsok Hinv Hfr).
Qed.

Lemma missing_prompt_defaults_witness :
  Stream.lambda_handler hello_stream (sample_event (Some (Parses (JObj []))))
    sample_context Stream.initial =
  ({| Stream.invocations := [(JStr "Hello, how are you?", JNum 1000)];
      Stream.sends :=
        [ws_attempt "conn-1" (Stream.token_message (JStr "Hel") 1) None;
         ws_attempt "conn-1" (Stream.token_message (JStr "lo") 2) None;
         ws_attempt "conn-1" (Stream.token_message (JStr " world") 3) None;
         ws_attempt "conn-1" (Stream.complete_message 3 "req-1") None];
      Stream.log := [Stream.StreamingCompleted 3] |},
   Ok (Stream.ok_response sample_context)) /\
  Request.sent
    (fst (Request.lambda_handler (request_world (Ok "sqs-1")) bare_start_event
            request_context Request.initial)) =
    [("https://sqs.example/queue",
      queued_message (request_world (Ok "sqs-1")) request_context
        (JStr "Hello, how are you?") "2024-01-01T00:00:00")] /\
  snd (Processing.process_streaming_request hello_processing
         (queued_message (request_world (Ok "sqs-1")) request_context
            (JStr "Hello, how are you?") "2024-01-01T00:00:00")
         Processing.initial) = Ok true /\
  map Processing.token
    (Processing.publishes
       (fst (Processing.process_streaming_request hello_processing
               (queued_message (request_world (Ok "sqs-1")) request_context
                  (JStr "Hello, how are you?") "2024-01-01T00:00:00")
               Processing.initial))) =
    [JStr "Hel"; JStr "lo"; JStr " world"; JStr EmptyString].
Proof.
  destruct (missing_prompt_defaults (request_world (Ok "sqs-1")) bare_start_event
              request_context [] hello_stream
              (sample_event (Some (Parses (JObj [])))) sample_context []
              eq_refl eq_refl eq_refl eq_refl)
    as (_ & _ & _ & _ & _ & Hrelay & Hqueue).
  split.
  - apply (Hrelay (JObj []) (JNum 1000) (map text_delta hello_texts) None
             (map JStr hello_texts) eq_refl eq_refl eq_refl eq_refl).
    intros i Hi. reflexivity.
  - destruct (Hqueue "https://sqs.example/queue" "sqs-1" hello_processing
                "https://appsync.example/graphql" "us-east-1"
                Processing.initial (map text_delta hello_texts) None
                (map JStr hello_texts)
                eq_refl eq_refl eq_refl eq_refl eq_refl eq_refl)
      as [Hsent Hrun].
    split; [exact Hsent|].
    change (queued_message (request_world (Ok "sqs-1")) request_context
              (JStr "Hello, how are you?") "2024-01-01T00:00:00")
      with (queued_message (request_world (Ok "sqs-1")) request_context
              (JStr default_prompt)
              (Request.utcnow_isoformat (request_world (Ok "sqs-1")) 0)).
    rewrite Hrun. split; reflexivity.
Defined.

(** * Further properties of the handlers *)

(** ** processing.py: any stream *)

(** Whatever the events are, the loop publishes the texts of the events it
    passed, numbered without a gap, and either counts them all or stops at
    the first event that raises. *)
Lemma appsync_loop_shape (w : Processing.world) (session_id : json)
    (appsync_url region : string) (evs : list event) :
  forall (fin : option exn) (c : Z) (st : Processing.state),
    exists texts r,
      Processing.relay_loop w session_id appsync_url region evs fin c st =
      (published st
         (token_publishes w session_id appsync_url region texts c
            (List.length (Processing.publishes st))), r) /\
      (r = Ok (c + Z.of_nat (List.length texts)) \/ exists e, r = Raise e).
Proof.
  induction evs as [|ev evs IH]; intros fin c st.
  - exists [], (match fin with None => Ok c | Some e => Raise e end).
    cbn [Processing.relay_loop token_publishes List.length].
    rewrite published_nil, Z.add_0_r. split.
    + now destruct fin.
    + destruct fin as [e|]; [right; now exists e | now left].
  - rewrite appsync_loop_cons.
    destruct (event_text ev) as [[text|]|e].
    + destruct (IH fin (c + 1)
                  (published st
                     (token_publishes w session_id appsync_url region [text] c
                        (List.length (Processing.publishes st)))))
        as (texts & r & Hrun & Hr).
      exists (text :: texts), r. split.
      * rewrite Hrun, published_app. f_equal. f_equal.
        unfold published. cbn [Processing.publishes].
        rewrite length_app. cbn [token_publishes List.length app].
        now rewrite Nat.add_1_r.
      * destruct Hr as [-> | He]; [left | now right].
        f_equal. cbn [List.length]. lia.
    + apply IH.
    + exists [], (Raise e). cbn [token_publishes].
      rewrite published_nil. split; [reflexivity | right; now exists e].
Qed.

Lemma request_fields_ok (w : Processing.world) (message_body : json)
    (prompt session_id : json) (appsync_url region : string) :
  request_fields w message_body = Ok (prompt, session_id, appsync_url, region) <->
  appsync_request w message_body prompt session_id appsync_url region.
Proof.
  unfold request_fields, appsync_request, res_bind. split.
  - destruct (py_getitem message_body "prompt") as [p|]; [|discriminate].
    destruct (py_getitem message_body "sessionId") as [s|]; [|discriminate].
    destruct (Processing.getenv w "APPSYNC_API_URL") as [u|]; [|discriminate].
    destruct (Processing.getenv w "AWS_REGION") as [r|]; [|discriminate].
    destruct (py_slice p) as [[]|] eqn:Hsl; [|discriminate].
    intros [= <- <- <- <-]. now rewrite Hsl.
  - intros (-> & -> & -> & -> & ->). reflexivity.
Qed.

(** The run of [process_streaming_request] once its fields are read, by
    what Bedrock answers and what the loop does. *)
Lemma appsync_try_block (w : Processing.world)
    (message_body prompt session_id : json) (appsync_url region : string)
    (st : Processing.state) :
  appsync_request w message_body prompt session_id appsync_url region ->
  let st0 := {| Processing.invocations := Processing.invocations st ++ [prompt];
                Processing.publishes := Processing.publishes st;
                Processing.log := Processing.log st |} in
  let fail (st1 : Processing.state) (e : exn) :=
    ({| Processing.invocations := Processing.invocations st1;
        Processing.publishes :=
          Processing.publishes st1 ++
          [error_publish session_id appsync_url region e
             (Processing.reply_ok
                (Processing.urlopen w (List.length (Processing.publishes st1))))];
        Processing.log := Processing.log st1 ++ [Processing.StreamError (str e)] |},
     Ok false) in
  Processing.process_streaming_request w message_body st =
  match Processing.invoke_model_with_response_stream w
          (List.length (Processing.invocations st)) prompt with
  | Raise e => fail st0 e
  | Ok response =>
      match Processing.relay_loop w session_id appsync_url region
              (events response) (ending response) 0 st0 with
      | (st1, Raise e) => fail st1 e
      | (st1, Ok token_count) =>
          ({| Processing.invocations := Processing.invocations st1;
              Processing.publishes :=
                Processing.publishes st1 ++
                [completion_publish session_id appsync_url region token_count
                   (Processing.reply_ok
                      (Processing.urlopen w
                         (List.length (Processing.publishes st1))))];
              Processing.log :=
                Processing.log st1 ++ [Processing.StreamCompleted token_count] |},
           Ok true)
      end
  end.
Proof.
  intros (Hp & Hs & Hu & Hr & Hsl) st0 fail.
  unfold Processing.process_streaming_request.
  unfold bind at 1. unfold lift at 1. rewrite Hp.
  unfold bind at 1. unfold lift at 1. rewrite Hs.
  unfold bind at 1. unfold lift at 1. rewrite Hu.
  unfold bind at 1. unfold lift at 1. rewrite Hr.
  unfold bind at 1. unfold lift at 1. rewrite Hsl.
  unfold try_except. unfold bind at 1. unfold Processing.invoke at 1.
  fold st0.
  destruct (Processing.invoke_model_with_response_stream w
              (List.length (Processing.invocations st)) prompt)
    as [response|e]; [|reflexivity].
  unfold bind at 1.
  destruct (Processing.relay_loop w session_id appsync_url region
              (events response) (ending response) 0 st0)
    as [st1 [token_count|e]]; reflexivity.
Qed.

(** X1.  [process_streaming_request] raises exactly when one of its reads
    before the [try] block raises (a missing field or setting, a prompt that
    cannot be previewed), with that exception, with nothing invoked or
    published and no outcome line logged; once the reads pass it invokes
    Bedrock exactly once and returns a boolean whatever Bedrock and AppSync
    do. *)
Theorem processing_raises_only_on_its_reads :
  forall (w : Processing.world) (message_body : json) (st : Processing.state),
    match request_fields w message_body with
    | Raise e =>
        Processing.process_streaming_request w message_body st = (st, Raise e)
    | Ok (prompt, _, _, _) =>
        exists st' b,
          Processing.process_streaming_request w message_body st = (st', Ok b) /\
          Processing.invocations st' =
            (Processing.invocations st ++ [prompt])%list
    end.
Proof.
  intros w message_body st.
  destruct (request_fields w message_body)
    as [[[[prompt session_id] appsync_url] region]|e] eqn:Hfields.
  - apply request_fields_ok in Hfields.
    rewrite (appsync_try_block w message_body prompt session_id appsync_url
               region st Hfields).
    cbv zeta.
    destruct (Processing.invoke_model_with_response_stream w _ prompt)
      as [response|e].
    + destruct (appsync_loop_shape w session_id appsync_url region
                  (events response) (ending response) 0
                  {| Processing.invocations := Processing.invocations st ++ [prompt];
                     Processing.publishes := Processing.publishes st;
                     Processing.log := Processing.log st |})
        as (texts & r & -> & Hr).
      destruct Hr as [-> | [e ->]]; eexists; eexists; split; reflexivity.
    + eexists; eexists; split; reflexivity.
  - unfold request_fields, res_bind in Hfields.
    unfold Processing.process_streaming_request.
    unfold bind at 1. unfold lift at 1.
    destruct (py_getitem message_body "prompt") as [prompt|e1];
      [|now injection Hfields as <-].
    unfold bind at 1. unfold lift at 1.
    destruct (py_getitem message_body "sessionId") as [session_id|e1];
      [|now injection Hfields as <-].
    unfold bind at 1. unfold lift at 1.
    destruct (Processing.getenv w "APPSYNC_API_URL") as [appsync_url|e1];
      [|now injection Hfields as <-].
    unfold bind at 1. unfold lift at 1.
    destruct (Processing.getenv w "AWS_REGION") as [region|e1];
      [|now injection Hfields as <-].
    unfold bind at 1. unfold lift at 1.
    destruct (py_slice prompt) as [[]|e1];
      [discriminate | now injection Hfields as <-].
Qed.

(** X2.  When the Bedrock invocation itself raises, the processor publishes
    exactly one fragment, the error fragment with [is_complete = True], the
    token ["Error: " + str(e)] and sequence 999, logs the error and returns
    [False]. *)
Theorem invoke_failure_publishes_error :
  forall (w : Processing.world) (message_body prompt session_id : json)
         (appsync_url region : string) (st : Processing.state) (e : exn),
    appsync_request w message_body prompt session_id appsync_url region ->
    Processing.invoke_model_with_response_stream w
      (List.length (Processing.invocations st)) prompt = Raise e ->
    Processing.process_streaming_request w message_body st =
    ({| Processing.invocations := Processing.invocations st ++ [prompt];
        Processing.publishes :=
          Processing.publishes st ++
          [error_publish session_id appsync_url region e
             (Processing.reply_ok
                (Processing.urlopen w (List.length (Processing.publishes st))))];
        Processing.log := Processing.log st ++ [Processing.StreamError (str e)] |},
     Ok false).
Proof.
  intros w message_body prompt session_id appsync_url region st e Hreq Hinv.
  rewrite (appsync_try_block w message_body prompt session_id appsync_url
             region st Hreq).
  cbv zeta. now rewrite Hinv.
Qed.

Lemma invoke_failure_publishes_error_witness :
  Processing.process_streaming_request
    (raw_processing (Raise (OtherException "AccessDeniedException")) http_ok)
    (sample_message "hi" "s-1") Processing.initial =
  ({| Processing.invocations := [JStr "hi"];
      Processing.publishes :=
        [error_publish (JStr "s-1") "https://appsync.example/graphql"
           "us-east-1" (OtherException "AccessDeniedException") true];
      Processing.log := [Processing.StreamError "AccessDeniedException"] |},
   Ok false).
Proof.
  apply (invoke_failure_publishes_error
           (raw_processing (Raise (OtherException "AccessDeniedException")) http_ok)
           (sample_message "hi" "s-1") (JStr "hi") (JStr "s-1")
           "https://appsync.example/graphql" "us-east-1" Processing.initial
           (OtherException "AccessDeniedException")).
  - repeat split; reflexivity.
  - reflexivity.
Defined.

(** X3.  When the bytes of a chunk are not JSON, the processor has published
    the fragments of the events before it, publishes the error fragment with
    the text of the decode error and returns [False]; the events after the
    chunk are never looked at. *)
Theorem undecodable_chunk_ends_the_run :
  forall (w : Processing.world) (message_body prompt session_id : json)
         (appsync_url region : string) (st : Processing.state)
         (pre post : list event) (fin : option exn) (texts : list json)
         (reason : string),
    appsync_request w message_body prompt session_id appsync_url region ->
    Processing.invoke_model_with_response_stream w
      (List.length (Processing.invocations st)) prompt =
      Ok {| events := pre ++ EvChunk (Malformed reason) :: post;
            ending := fin |} ->
    fragments_of pre = Ok texts ->
    Processing.process_streaming_request w message_body st =
    ({| Processing.invocations := Processing.invocations st ++ [prompt];
        Processing.publishes :=
          Processing.publishes st ++
          token_publishes w session_id appsync_url region texts 0
            (List.length (Processing.publishes st)) ++
          [error_publish session_id appsync_url region (JSONDecodeError reason)
             (Processing.reply_ok
                (Processing.urlopen w
                   (List.length (Processing.publishes st) + List.length texts)))];
        Processing.log := Processing.log st ++ [Processing.StreamError reason] |},
     Ok false).
Proof.
  intros w message_body prompt session_id appsync_url region st pre post fin
         texts reason Hreq Hinv Hfr.
  rewrite (appsync_try_block w message_body prompt session_id appsync_url
             region st Hreq).
  cbv zeta. rewrite Hinv. cbn [events ending].
  rewrite (appsync_loop_prefix w session_id appsync_url region pre texts _ fin 0
             _ Hfr).
  rewrite appsync_loop_cons. cbn [event_text json_loads res_bind].
  unfold published, error_publish.
  cbn [Processing.publishes Processing.invocations Processing.log str].
  rewrite length_app, token_publishes_length. now rewrite <- app_assoc.
Qed.

Lemma undecodable_chunk_ends_the_run_witness :
  Processing.process_streaming_request
    (raw_processing
       (Ok {| events := [text_delta "A"] ++
                        EvChunk (Malformed "Expecting value") :: [text_delta "B"];
              ending := None |}) http_ok)
    (sample_message "hi" "s-1") Processing.initial =
  ({| Processing.invocations := [JStr "hi"];
      Processing.publishes :=
        [{| Processing.session_id := JStr "s-1";
            Processing.token := JStr "A";
            Processing.is_complete := false;
            Processing.sequence := 1;
            Processing.appsync_url := "https://appsync.example/graphql";
            Processing.region := "us-east-1";
            Processing.returned := true |};
         error_publish (JStr "s-1") "https://appsync.example/graphql"
           "us-east-1" (JSONDecodeError "Expecting value") true];
      Processing.log := [Processing.StreamError "Expecting value"] |},
   Ok false).
Proof.
  apply (undecodable_chunk_ends_the_run
           (raw_processing
              (Ok {| events := [text_delta "A"] ++
                               EvChunk (Malformed "Expecting value") :: [text_delta "B"];
                     ending := None |}) http_ok)
           (sample_message "hi" "s-1") (JStr "hi") (JStr "s-1")
           "https://appsync.example/graphql" "us-east-1" Processing.initial
           [text_delta "A"] [text_delta "B"] None [JStr "A"] "Expecting value").
  - repeat split; reflexivity.
  - reflexivity.
  - reflexivity.
Defined.

(** X4.  Whatever Bedrock streams or raises and whatever AppSync answers, a
    run that passed its reads publishes ordinary fragments with
    [is_complete = False], numbered 1, 2, ... without a gap, and then exactly
    one fragment with [is_complete = True], which is its last publish: the
    completion fragment (empty token, next number) when it returns [True],
    the error fragment (sequence 999) when it returns [False]. *)
Theorem appsync_run_ends_with_one_terminal :
  forall (w : Processing.world) (message_body prompt session_id : json)
         (appsync_url region : string) (st : Processing.state),
    appsync_request w message_body prompt session_id appsync_url region ->
    exists (texts : list json) (terminal : Processing.publish_call)
           (st' : Processing.state) (b : bool),
      let tokens := token_publishes w session_id appsync_url region texts 0
                      (List.length (Processing.publishes st)) in
      Processing.process_streaming_request w message_body st = (st', Ok b) /\
      Processing.publishes st' =
        (Processing.publishes st ++ tokens ++ [terminal])%list /\
      Forall (fun call => Processing.is_complete call = false) tokens /\
      map Processing.sequence tokens = sequence_numbers 0 (List.length texts) /\
      Processing.is_complete terminal = true /\
      (if b
       then Processing.token terminal = JStr EmptyString /\
            Processing.sequence terminal = Z.of_nat (List.length texts) + 1
       else Processing.sequence terminal = 999 /\
            exists e, Processing.token terminal = JStr ("Error: " ++ str e)).
Proof.
  intros w message_body prompt session_id appsync_url region st Hreq.
  rewrite (appsync_try_block w message_body prompt session_id appsync_url
             region st Hreq).
  cbv zeta.
  destruct (Processing.invoke_model_with_response_stream w _ prompt)
    as [response|e].
  - destruct (appsync_loop_shape w session_id appsync_url region
                (events response) (ending response) 0
                {| Processing.invocations := Processing.invocations st ++ [prompt];
                   Processing.publishes := Processing.publishes st;
                   Processing.log := Processing.log st |})
      as (texts & r & -> & Hr).
    cbn [Processing.publishes] in *.
    destruct Hr as [-> | [e ->]].
    + exists texts. eexists. eexists. exists true.
      split; [reflexivity|]. unfold published.
      cbn [Processing.publishes]. rewrite <- app_assoc.
      split; [reflexivity|].
      split; [apply token_publishes_not_complete|].
      split; [apply token_publishes_sequence|].
      split; [reflexivity|]. split; [reflexivity|].
      cbn [completion_publish Processing.sequence]. lia.
    + exists texts. eexists. eexists. exists false.
      split; [reflexivity|]. unfold published.
      cbn [Processing.publishes]. rewrite <- app_assoc.
      split; [reflexivity|].
      split; [apply token_publishes_not_complete|].
      split; [apply token_publishes_sequence|].
      split; [reflexivity|]. split; [reflexivity|].
      exists e. reflexivity.
  - exists []. eexists. eexists. exists false.
    split; [reflexivity|]. cbn [token_publishes app Processing.publishes].
    split; [reflexivity|].
    split; [constructor|]. split; [reflexivity|].
    split; [reflexivity|]. split; [reflexivity|].
    exists e. reflexivity.
Qed.

Lemma appsync_run_ends_with_one_terminal_witness :
  exists (texts : list json) (terminal : Processing.publish_call)
         (st' : Processing.state) (b : bool),
    Processing.process_streaming_request hello_processing
      (sample_message "hi" "s-1") Processing.initial = (st', Ok b) /\
    Processing.publishes st' =
      (token_publishes hello_processing (JStr "s-1")
         "https://appsync.example/graphql" "us-east-1" texts 0 0 ++
       [terminal])%list /\
    Processing.is_complete terminal = true.
Proof.
  destruct (appsync_run_ends_with_one_terminal hello_processing
              (sample_message "hi" "s-1") (JStr "hi") (JStr "s-1")
              "https://appsync.example/graphql" "us-east-1" Processing.initial
              (conj eq_refl (conj eq_refl (conj eq_refl (conj eq_refl eq_refl)))))
    as (texts & terminal & st' & b & Hrun & Hpub & _ & _ & Hterm & _).
  exists texts, terminal, st', b. repeat split; assumption.
Defined.

Lemma strictly_increasing_numbers (n : nat) :
  forall c m : Z,
    c + Z.of_nat n < m ->
    strictly_increasing (sequence_numbers c n ++ [m])%list = true.
Proof.
  induction n as [|n IH]; intros c m Hlt; [reflexivity|].
  cbn [sequence_numbers app].
  change (strictly_increasing (c + 1 :: sequence_numbers (c + 1) n ++ [m])%list)
    with (match (sequence_numbers (c + 1) n ++ [m])%list with
          | [] => true
          | k :: _ =>
              (c + 1 <? k) &&
              strictly_increasing (sequence_numbers (c + 1) n ++ [m])%list
          end).
  rewrite (IH (c + 1) m) by lia.
  destruct n as [|n]; cbn [sequence_numbers app]; rewrite andb_true_r;
    apply Z.ltb_lt; lia.
Qed.

(** X5.  The publish calls of one run carry strictly increasing sequence
    numbers when the stream ends normally, and also when it raises after
    fewer than 999 fragments. *)
Theorem sequences_increase_below_999 :
  forall (w : Processing.world) (message_body prompt session_id : json)
         (appsync_url region : string) (st : Processing.state)
         (evs : list event) (fin : option exn) (texts : list json),
    appsync_request w message_body prompt session_id appsync_url region ->
    Processing.invoke_model_with_response_stream w
      (List.length (Processing.invocations st)) prompt =
      Ok {| events := evs; ending := fin |} ->
    fragments_of evs = Ok texts ->
    fin = None \/ Z.of_nat (List.length texts) < 999 ->
    exists added,
      Processing.publishes
        (fst (Processing.process_streaming_request w message_body st)) =
        (Processing.publishes st ++ added)%list /\
      List.length added = Datatypes.S (List.length texts) /\
      strictly_increasing (map Processing.sequence added) = true.
Proof.
  intros w message_body prompt session_id appsync_url region st evs fin texts
         Hreq Hinv Hfr Hbound.
  rewrite (appsync_run w session_id appsync_url region message_body prompt
             st evs fin texts Hreq Hinv Hfr).
  cbv zeta.
  destruct fin as [e|]; eexists; (split; [reflexivity|]);
    rewrite length_app, token_publishes_length, map_app,
      token_publishes_sequence; cbn [List.length map]; (split; [lia|]);
    apply strictly_increasing_numbers;
    cbn [error_publish completion_publish Processing.sequence].
  - destruct Hbound as [Hnone | Hlt]; [discriminate | lia].
  - lia.
Qed.

Lemma sequences_increase_below_999_witness :
  exists added,
    Processing.publishes
      (fst (Processing.process_streaming_request
              (processing_world ["par"; "tial"]
                 (Some (OtherException "upstream stalled")) http_ok)
              (sample_message "hi" "s-1") Processing.initial)) =
      ([] ++ added)%list /\
    List.length added = 3%nat /\
    strictly_increasing (map Processing.sequence added) = true.
Proof.
  apply (sequences_increase_below_999
           (processing_world ["par"; "tial"]
              (Some (OtherException "upstream stalled")) http_ok)
           (sample_message "hi" "s-1") (JStr "hi") (JStr "s-1")
           "https://appsync.example/graphql" "us-east-1" Processing.initial
           (map text_delta ["par"; "tial"])
           (Some (OtherException "upstream stalled"))
           [JStr "par"; JStr "tial"]).
  - repeat split; reflexivity.
  - reflexivity.
  - reflexivity.
  - right. reflexivity.
Defined.

(** ** stream.py: any stream, any connection *)

Lemma ws_logged_nil (st : Stream.state) : ws_logged st [] = st.
Proof.
  destruct st; unfold ws_logged; simpl. now rewrite app_nil_r.
Qed.

Lemma token_numbered_token_message (connection_id : string) (text : json)
    (n : Z) (r : option exn) :
  token_numbered (ws_attempt connection_id (Stream.token_message text n) r) n =
  true.
Proof.
  unfold token_numbered, has_type, message_field, ws_attempt,
    Stream.token_message.
  cbn. now rewrite Z.eqb_refl.
Qed.

(** Whatever the events and the connection do, the loop posts token messages
    numbered without a gap, stops at the first post that fails, and, when it
    does not raise, returns the number of posts it made. *)
Lemma ws_loop_shape (w : Stream.world) (connection_id : string)
    (evs : list event) :
  forall (fin : option exn) (c : Z) (st : Stream.state),
    exists tokens entries r,
      Stream.relay_loop w connection_id evs fin c st =
      (ws_logged (ws_posted st tokens) entries, r) /\
      token_run c tokens = true /\
      (r = Ok (c + Z.of_nat (List.length tokens)) \/ exists e, r = Raise e).
Proof.
  induction evs as [|ev evs IH]; intros fin c st.
  - exists [], [], (match fin with None => Ok c | Some e => Raise e end).
    cbn [Stream.relay_loop List.length token_run].
    rewrite ws_posted_nil, ws_logged_nil, Z.add_0_r. split; [|split].
    + now destruct fin.
    + reflexivity.
    + destruct fin as [e|]; [right; now exists e | now left].
  - rewrite ws_loop_cons.
    destruct (event_text ev) as [[text|]|e].
    + cbv zeta.
      set (r0 := Stream.post_to_connection w (List.length (Stream.sends st))).
      set (a := ws_attempt connection_id (Stream.token_message text (c + 1)) r0).
      assert (Ha : token_numbered a (c + 1) = true)
        by apply token_numbered_token_message.
      destruct r0 as [e|] eqn:Hr0.
      * destruct (is_gone e).
        -- exists [a], [Stream.ConnectionClosed (c + 1)], (Ok (c + 1)).
           split; [reflexivity|]. split.
           ++ cbn [token_run]. now rewrite Ha.
           ++ left. reflexivity.
        -- exists [a], [], (Raise e). rewrite ws_logged_nil.
           split; [reflexivity|]. split.
           ++ cbn [token_run]. now rewrite Ha.
           ++ right. now exists e.
      * destruct (IH fin (c + 1) (ws_posted st [a]))
          as (tokens & entries & r & Hrun & Htokens & Hr).
        exists (a :: tokens), entries, r. split; [|split].
        -- rewrite Hrun, ws_posted_app. reflexivity.
        -- cbn [token_run]. rewrite Ha, Htokens.
           assert (Hd : delivered a = true) by reflexivity.
           rewrite Hd. now destruct tokens.
        -- destruct Hr as [-> | He]; [left | now right].
           f_equal. cbn [List.length]. lia.
    + apply IH.
    + exists [], [], (Raise e). rewrite ws_posted_nil, ws_logged_nil.
      split; [reflexivity|]. split; [reflexivity|]. right. now exists e.
Qed.

(** The [try] block and its [except] block, by what Bedrock answers, what the
    loop does and how the completion message goes. *)
Lemma ws_try_block (w : Stream.world) (connection_id : string)
    (context : Stream.lambda_context) (max_tokens prompt : json)
    (st : Stream.state) :
  let st0 := {| Stream.invocations :=
                  Stream.invocations st ++ [(prompt, max_tokens)];
                Stream.sends := Stream.sends st;
                Stream.log := Stream.log st |} in
  try_except (Stream.relay w connection_id context max_tokens prompt)
    (Stream.notify_error w connection_id context) st =
  match Stream.invoke_model_with_response_stream w max_tokens prompt with
  | Raise e => Stream.notify_error w connection_id context e st0
  | Ok response =>
      match Stream.relay_loop w connection_id (events response)
              (ending response) 0 st0 with
      | (st1, Raise e) => Stream.notify_error w connection_id context e st1
      | (st1, Ok token_count) =>
          match Stream.send_completion w connection_id context token_count st1 with
          | (st2, Raise e) => Stream.notify_error w connection_id context e st2
          | (st2, Ok u) => (st2, Ok u)
          end
      end
  end.
Proof.
  intros st0. unfold try_except, Stream.relay.
  unfold bind at 1. unfold Stream.invoke at 1. fold st0.
  destruct (Stream.invoke_model_with_response_stream w max_tokens prompt)
    as [response|e]; [|reflexivity].
  unfold bind at 1.
  destruct (Stream.relay_loop w connection_id (events response)
              (ending response) 0 st0) as [st1 [token_count|e]];
    reflexivity.
Qed.

Lemma ws_notify_error_sends (w : Stream.world) (connection_id : string)
    (context : Stream.lambda_context) (e : exn) (st : Stream.state) :
  Stream.sends (fst (Stream.notify_error w connection_id context e st)) =
  (Stream.sends st ++
   [ws_attempt connection_id
      (Stream.error_message (str e) (Stream.aws_request_id context))
      (Stream.post_to_connection w (List.length (Stream.sends st)))])%list.
Proof.
  rewrite ws_notify_error. cbv zeta. cbn [fst Stream.sends ws_logged].
  destruct (Stream.post_to_connection w (List.length (Stream.sends st)));
    reflexivity.
Qed.

(** After the loop: the completion message, and the error message when the
    completion could not be posted for another reason than a closed
    connection. *)
Lemma ws_terminal_phase (w : Stream.world) (connection_id : string)
    (context : Stream.lambda_context) (c : Z) (st : Stream.state) :
  exists terminals,
    Stream.sends
      (fst (match Stream.send_completion w connection_id context c st with
            | (st2, Raise e) => Stream.notify_error w connection_id context e st2
            | (st2, Ok u) => (st2, Ok u)
            end)) = (Stream.sends st ++ terminals)%list /\
    terminal_run terminals = true.
Proof.
  rewrite ws_send_completion. cbv zeta.
  destruct (Stream.post_to_connection w (List.length (Stream.sends st)))
    as [e|] eqn:Hpost.
  - destruct (is_gone e).
    + eexists. split; reflexivity.
    + rewrite ws_notify_error_sends. cbn [ws_posted Stream.sends].
      rewrite <- app_assoc. eexists. split; reflexivity.
  - eexists. split; reflexivity.
Qed.

(** X6.  Whatever Bedrock and the connection do, the posts of one WebSocket
    invocation that read its request are: token messages numbered 1, 2, ...
    without a gap, of which only the last may have failed, followed by the
    end of the run, which is one completion message, or one error message, or
    a completion message that failed followed by one error message.  So the
    delivered messages are in sequence order and at most one delivered
    message is not a token, and it comes last.  The handler then returns its
    200 response. *)
Theorem websocket_posts_are_ordered :
  forall (w : Stream.world) (ev : Stream.ws_event)
         (context : Stream.lambda_context) (prompt max_tokens : json),
    ws_request ev prompt max_tokens ->
    exists tokens terminals,
      Stream.sends
        (fst (Stream.lambda_handler w ev context Stream.initial)) =
        (tokens ++ terminals)%list /\
      token_run 0 tokens = true /\
      terminal_run terminals = true /\
      snd (Stream.lambda_handler w ev context Stream.initial) =
        Ok (Stream.ok_response context).
Proof.
  intros w ev context prompt max_tokens Hreq.
  rewrite (ws_handler_relays w ev context prompt max_tokens _ Hreq).
  cbn [fst snd]. rewrite ws_try_block. cbv zeta.
  set (connection_id := Stream.connectionId (Stream.requestContext ev)).
  destruct (Stream.invoke_model_with_response_stream w max_tokens prompt)
    as [response|e].
  - destruct (ws_loop_shape w connection_id (events response) (ending response)
                0 {| Stream.invocations :=
                       Stream.invocations Stream.initial ++ [(prompt, max_tokens)];
                     Stream.sends := Stream.sends Stream.initial;
                     Stream.log := Stream.log Stream.initial |})
      as (tokens & entries & r & -> & Htokens & Hr).
    exists tokens.
    destruct Hr as [-> | [e ->]].
    + destruct (ws_terminal_phase w connection_id context
                  (0 + Z.of_nat (List.length tokens))
                  (ws_logged
                     (ws_posted
                        {| Stream.invocations :=
                             Stream.invocations Stream.initial ++
                             [(prompt, max_tokens)];
                           Stream.sends := Stream.sends Stream.initial;
                           Stream.log := Stream.log Stream.initial |} tokens)
                     entries))
        as (terminals & Hsends & Hterm).
      exists terminals. rewrite Hsends. repeat split; assumption.
    + rewrite ws_notify_error_sends. eexists.
      split; [reflexivity|]. repeat split; assumption.
  - exists []. rewrite ws_notify_error_sends. eexists.
    split; [reflexivity|]. repeat split.
Qed.

Lemma websocket_posts_are_ordered_witness :
  exists tokens terminals,
    Stream.sends
      (fst (Stream.lambda_handler late_refusing_stream (sample_event None)
              sample_context Stream.initial)) = (tokens ++ terminals)%list /\
    token_run 0 tokens = true /\
    terminal_run terminals = true.
Proof.
  destruct (websocket_posts_are_ordered late_refusing_stream (sample_event None)
              sample_context (JStr default_prompt) (JNum 1000)
              (ex_intro _ (JObj []) (conj eq_refl eq_refl)))
    as (tokens & terminals & Hsends & Htokens & Hterm & _).
  exists tokens, terminals. repeat split; assumption.
Defined.

(** X7.  The WebSocket handler decides how it answers before any service
    is called.  A body on which [json.loads] raises [JSONDecodeError] is
    logged and answered with the 400 response.  A body on which [json.loads]
    raises another exception, as [RecursionError] on a text nested too deep,
    makes the handler raise that exception, and so does a body that parses
    but cannot be read (it is not an object, its options are not an object,
    its prompt cannot be sliced); in both cases nothing is invoked or posted
    and no outcome line is logged.  Any other request gets the 200
    response. *)
Theorem websocket_request_outcomes :
  forall (w : Stream.world) (ev : Stream.ws_event)
         (context : Stream.lambda_context) (st : Stream.state),
    match Stream.event_body ev with
    | Malformed reason =>
        Stream.lambda_handler w ev context st =
        (ws_logged st [Stream.InvalidJson reason],
         Ok Stream.invalid_json_response)
    | TooDeep msg =>
        Stream.lambda_handler w ev context st = (st, Raise (RecursionError msg))
    | Parses body =>
        match Stream.read_request body with
        | Raise e => Stream.lambda_handler w ev context st = (st, Raise e)
        | Ok _ =>
            snd (Stream.lambda_handler w ev context st) =
            Ok (Stream.ok_response context)
        end
    end /\
    (forall body,
       (forall fields, body <> JObj fields) ->
       exists msg, Stream.read_request body = Raise (AttributeError msg)).
Proof.
  intros w ev context st. split.
  - destruct (Stream.event_body ev) as [body|reason|msg] eqn:Hbody.
    + destruct (Stream.read_request body) as [[prompt max_tokens]|e] eqn:Hread.
      * rewrite (ws_handler_relays w ev context prompt max_tokens st).
        -- reflexivity.
        -- exists body. now split.
      * unfold Stream.lambda_handler. rewrite Hbody. cbn [json_loads].
        unfold bind, lift. now rewrite Hread.
    + unfold Stream.lambda_handler. rewrite Hbody. reflexivity.
    + unfold Stream.lambda_handler. rewrite Hbody. reflexivity.
  - intros body Hnot.
    destruct body as [| | | | |fields];
      try (eexists; reflexivity).
    now elim (Hnot fields).
Qed.

Lemma websocket_request_outcomes_witness :
  Stream.lambda_handler hello_stream
    (sample_event (Some (Malformed "Expecting value"))) sample_context
    Stream.initial =
    (ws_logged Stream.initial [Stream.InvalidJson "Expecting value"],
     Ok Stream.invalid_json_response) /\
  Stream.lambda_handler hello_stream
    (sample_event (Some (TooDeep "maximum recursion depth exceeded")))
    sample_context Stream.initial =
    (Stream.initial, Raise (RecursionError "maximum recursion depth exceeded")) /\
  (exists msg, Stream.read_request (JArr []) = Raise (AttributeError msg)).
Proof.
  destruct (websocket_request_outcomes hello_stream
              (sample_event (Some (Malformed "Expecting value")))
              sample_context Stream.initial) as [Hrun Hshape].
  destruct (websocket_request_outcomes hello_stream
              (sample_event (Some (TooDeep "maximum recursion depth exceeded")))
              sample_context Stream.initial) as [Hdeep _].
  split; [exact Hrun|]. split; [exact Hdeep|].
  apply Hshape. intros fields. discriminate.
Defined.

(** X8.  When the iteration over the Bedrock stream raises after k fragments
    that were all posted, the WebSocket handler posts no completion message:
    it logs the error and posts exactly one more message, of type error, that
    carries [str(e)]; when that post fails this is only logged.  The handler
    returns its 200 response. *)
Theorem websocket_backend_failure :
  forall (w : Stream.world) (ev : Stream.ws_event)
         (context : Stream.lambda_context) (prompt max_tokens : json)
         (evs : list event) (texts : list json) (e : exn),
    ws_request ev prompt max_tokens ->
    Stream.invoke_model_with_response_stream w max_tokens prompt =
      Ok {| events := evs; ending := Some e |} ->
    fragments_of evs = Ok texts ->
    (forall i, (i < List.length texts)%nat ->
       Stream.post_to_connection w i = None) ->
    let connection_id := Stream.connectionId (Stream.requestContext ev) in
    let last := Stream.post_to_connection w (List.length texts) in
    Stream.lambda_handler w ev context Stream.initial =
    ({| Stream.invocations := [(prompt, max_tokens)];
        Stream.sends :=
          token_attempts connection_id texts 0 ++
          [ws_attempt connection_id
             (Stream.error_message (str e) (Stream.aws_request_id context)) last];
        Stream.log :=
          Stream.StreamingError (str e) ::
          match last with
          | None => []
          | Some _ => [Stream.CouldNotSendError]
          end |},
     Ok (Stream.ok_response context)).
Proof.
  intros w ev context prompt max_tokens evs texts e Hreq Hinv Hfr Hok
         connection_id last.
  rewrite <- (app_nil_r evs) in Hinv.
  rewrite (ws_run_prefix w ev context prompt max_tokens evs [] (Some e) texts
             Hreq Hinv Hfr Hok).
  f_equal. fold connection_id.
  unfold try_except, bind. cbn [Stream.relay_loop]. unfold raise.
  rewrite ws_notify_error. cbv zeta.
  unfold ws_logged, ws_posted.
  cbn [Stream.sends Stream.invocations Stream.log app fst].
  rewrite token_attempts_length. fold last.
  destruct last; reflexivity.
Qed.

Lemma websocket_backend_failure_witness :
  Stream.lambda_handler stalled_stream (sample_event None) sample_context
    Stream.initial =
  ({| Stream.invocations := [(JStr default_prompt, JNum 1000)];
      Stream.sends :=
        [ws_attempt "conn-1" (Stream.token_message (JStr "partial") 1) None;
         ws_attempt "conn-1" (Stream.error_message "upstream stalled" "req-1")
           None];
      Stream.log := [Stream.StreamingError "upstream stalled"] |},
   Ok (Stream.ok_response sample_context)).
Proof.
  apply (websocket_backend_failure stalled_stream (sample_event None)
           sample_context (JStr default_prompt) (JNum 1000)
           [text_delta "partial"] [JStr "partial"]
           (OtherException "upstream stalled")).
  - exists (JObj []). split; reflexivity.
  - reflexivity.
  - reflexivity.
  - intros i Hi. reflexivity.
Defined.

(** X9.  When the Bedrock invocation itself raises, the WebSocket handler
    posts exactly one message, the error message with [str(e)], and returns
    its 200 response. *)
Theorem websocket_invoke_failure :
  forall (w : Stream.world) (ev : Stream.ws_event)
         (context : Stream.lambda_context) (prompt max_tokens : json) (e : exn),
    ws_request ev prompt max_tokens ->
    Stream.invoke_model_with_response_stream w max_tokens prompt = Raise e ->
    let connection_id := Stream.connectionId (Stream.requestContext ev) in
    let last := Stream.post_to_connection w 0 in
    Stream.lambda_handler w ev context Stream.initial =
    ({| Stream.invocations := [(prompt, max_tokens)];
        Stream.sends :=
          [ws_attempt connection_id
             (Stream.error_message (str e) (Stream.aws_request_id context)) last];
        Stream.log :=
          Stream.StreamingError (str e) ::
          match last with
          | None => []
          | Some _ => [Stream.CouldNotSendError]
          end |},
     Ok (Stream.ok_response context)).
Proof.
  intros w ev context prompt max_tokens e Hreq Hinv connection_id last.
  rewrite (ws_handler_relays w ev context prompt max_tokens _ Hreq).
  f_equal. rewrite ws_try_block. cbv zeta. rewrite Hinv.
  rewrite ws_notify_error. cbv zeta.
  unfold ws_logged, ws_posted, Stream.initial.
  cbn [Stream.sends Stream.invocations Stream.log app fst List.length].
  fold connection_id. fold last.
  destruct last; reflexivity.
Qed.

Lemma websocket_invoke_failure_witness :
  Stream.lambda_handler
    (raw_stream (Raise (OtherException "ThrottlingException")) sink_ok)
    (sample_event None) sample_context Stream.initial =
  ({| Stream.invocations := [(JStr default_prompt, JNum 1000)];
      Stream.sends :=
        [ws_attempt "conn-1"
           (Stream.error_message "ThrottlingException" "req-1") None];
      Stream.log := [Stream.StreamingError "ThrottlingException"] |},
   Ok (Stream.ok_response sample_context)).
Proof.
  apply (websocket_invoke_failure
           (raw_stream (Raise (OtherException "ThrottlingException")) sink_ok)
           (sample_event None) sample_context
           (JStr default_prompt) (JNum 1000)
           (OtherException "ThrottlingException")).
  - exists (JObj []). split; reflexivity.
  - reflexivity.
Defined.

(** ** processing.py: any batch *)

(** X10.  For every event, also one without records or with repeated message
    ids, the batch handler returns and never raises; the failures it reports
    are message ids of the batch, in the order of the batch, at most one per
    record; an event without records or with an empty list reports no failure
    and leaves the state as it was. *)
Theorem batch_failures_are_picked_in_order :
  forall (w : Processing.world) (ev : Processing.sqs_event),
    (exists st' failures,
       Processing.lambda_handler w ev Processing.initial =
         (st', Ok {| Processing.batchItemFailures := failures |}) /\
       picked_from failures
         (map Processing.messageId (Processing.event_records ev))) /\
    (Processing.event_records ev = [] ->
     Processing.lambda_handler w ev Processing.initial =
       (Processing.initial, Ok {| Processing.batchItemFailures := [] |})).
Proof.
  intros w ev. split.
  - exists (fst (Processing.handle_records w (Processing.event_records ev) []
                   Processing.initial)),
           (contributions w (Processing.event_records ev) Processing.initial).
    split.
    + unfold Processing.lambda_handler, bind.
      now rewrite handle_records_spec.
    + apply contributions_picked.
  - intros Hempty. unfold Processing.lambda_handler, bind.
    now rewrite Hempty.
Qed.

Lemma batch_failures_are_picked_in_order_witness :
  Processing.lambda_handler hello_processing
    {| Processing.Records := None |} Processing.initial =
  (Processing.initial, Ok {| Processing.batchItemFailures := [] |}).
Proof.
  apply (proj2 (batch_failures_are_picked_in_order hello_processing
                  {| Processing.Records := None |})).
  reflexivity.
Defined.

(** ** request.py *)

(** X11.  Without the setting [STREAMING_QUEUE_URL] the session-start
    resolver raises [KeyError] after reading the prompt: it returns no
    response, not even the error response, and sends nothing to the queue. *)
Theorem session_start_needs_queue_url :
  forall (w : Request.world) (event : list (string * json))
         (context : Request.lambda_context) (st : Request.state)
         (prompt : json),
    py_get (Request.event_arguments event) "prompt" (JStr default_prompt) =
      Ok prompt ->
    Request.environ w "STREAMING_QUEUE_URL" = None ->
    Request.lambda_handler w event context st =
    (st, Raise (KeyError "STREAMING_QUEUE_URL")).
Proof.
  intros w event context st prompt Hprompt Henv.
  unfold Request.lambda_handler.
  unfold bind at 1. unfold lift at 1. rewrite Hprompt.
  unfold bind at 1. unfold lift at 1. unfold Request.getenv.
  now rewrite Henv.
Qed.

Lemma session_start_needs_queue_url_witness :
  Request.lambda_handler
    {| Request.environ := fun _ => None;
       Request.uuid4 := "123e4567-e89b-12d3-a456-426614174000";
       Request.utcnow_isoformat := fun _ => "2024-01-01T00:00:00";
       Request.send_message := fun _ _ => Ok "sqs-1" |}
    (start_event "hi") request_context Request.initial =
  (Request.initial, Raise (KeyError "STREAMING_QUEUE_URL")).
Proof.
  apply (session_start_needs_queue_url _ (start_event "hi") request_context
           Request.initial (JStr "hi")); reflexivity.
Defined.

(** X12.  The session id the resolver returns to the client is the one the
    worker publishes under: when the enqueue succeeds, the processing Lambda
    that receives the queued message reads from it the prompt of the request
    and, as session id, the [sessionId] of the resolver's response, and every
    fragment it publishes for a stream that ends normally carries that
    session id. *)
Theorem session_id_links_request_and_stream :
  forall (wr : Request.world) (start : list (string * json))
         (context : Request.lambda_context) (prompt queue_url sqs_id : string)
         (wp : Processing.world) (appsync_url region : string)
         (st : Processing.state) (evs : list event) (texts : list json),
    py_get (Request.event_arguments start) "prompt" (JStr default_prompt) =
      Ok (JStr prompt) ->
    Request.getenv wr "STREAMING_QUEUE_URL" = Ok queue_url ->
    Request.send_message wr queue_url
      (queued_message wr context (JStr prompt) (Request.utcnow_isoformat wr 0)) =
      Ok sqs_id ->
    Processing.getenv wp "APPSYNC_API_URL" = Ok appsync_url ->
    Processing.getenv wp "AWS_REGION" = Ok region ->
    Processing.invoke_model_with_response_stream wp
      (List.length (Processing.invocations st)) (JStr prompt) =
      Ok {| events := evs; ending := None |} ->
    fragments_of evs = Ok texts ->
    exists response queued added,
      snd (Request.lambda_handler wr start context Request.initial) =
        Ok response /\
      Request.sent
        (fst (Request.lambda_handler wr start context Request.initial)) =
        [(queue_url, queued)] /\
      field "sessionId" response = Some (JStr (Request.uuid4 wr)) /\
      Processing.publishes
        (fst (Processing.process_streaming_request wp queued st)) =
        (Processing.publishes st ++ added)%list /\
      List.length added = Datatypes.S (List.length texts) /\
      Forall (fun call =>
                Some (Processing.session_id call) = field "sessionId" response)
        added /\
      Processing.invocations
        (fst (Processing.process_streaming_request wp queued st)) =
        (Processing.invocations st ++ [JStr prompt])%list.
Proof.
  intros wr start context prompt queue_url sqs_id wp appsync_url region st
         evs texts Hprompt Henv Hsend Hurl Hregion Hinv Hfr.
  rewrite (request_run wr start context (JStr prompt) queue_url Request.initial
             Hprompt eq_refl Henv).
  cbv zeta. cbn [Request.clock_reads Request.initial]. rewrite Hsend.
  cbn [fst snd Request.sent app].
  eexists. eexists. eexists.
  split; [reflexivity|]. split; [reflexivity|]. split; [reflexivity|].
  assert (Hreq : appsync_request wp
                   (queued_message wr context (JStr prompt)
                      (Request.utcnow_isoformat wr 0))
                   (JStr prompt) (JStr (Request.uuid4 wr)) appsync_url region)
    by (repeat split; assumption).
  rewrite (appsync_run wp (JStr (Request.uuid4 wr)) appsync_url region _
             (JStr prompt) st evs None texts Hreq Hinv Hfr).
  cbv zeta. cbn [fst Processing.publishes Processing.invocations].
  split; [reflexivity|]. split; [|split; [|reflexivity]].
  - rewrite length_app, token_publishes_length. cbn [List.length]. lia.
  - apply Forall_app. split.
    + clear. generalize 0 at 1. generalize (List.length (Processing.publishes st)).
      induction texts as [|t ts IH]; intros n c; cbn [token_publishes];
        constructor; auto.
    + constructor; [reflexivity | constructor].
Qed.

Lemma session_id_links_request_and_stream_witness :
  exists response queued added,
    snd (Request.lambda_handler (request_world (Ok "sqs-1")) (start_event "hi")
           request_context Request.initial) = Ok response /\
    Request.sent
      (fst (Request.lambda_handler (request_world (Ok "sqs-1"))
              (start_event "hi") request_context Request.initial)) =
      [("https://sqs.example/queue", queued)] /\
    field "sessionId" response =
      Some (JStr "123e4567-e89b-12d3-a456-426614174000") /\
    Processing.publishes
      (fst (Processing.process_streaming_request hello_processing queued
              Processing.initial)) = ([] ++ added)%list /\
    List.length added = 4%nat /\
    Forall (fun call =>
              Some (Processing.session_id call) = field "sessionId" response)
      added.
Proof.
  destruct (session_id_links_request_and_stream
              (request_world (Ok "sqs-1")) (start_event "hi") request_context
              "hi" "https://sqs.example/queue" "sqs-1"
              hello_processing "https://appsync.example/graphql" "us-east-1"
              Processing.initial (map text_delta hello_texts)
              (map JStr hello_texts)
              eq_refl eq_refl eq_refl eq_refl eq_refl eq_refl eq_refl)
    as (response & queued & added & H1 & H2 & H3 & H4 & H5 & H6 & _).
  exists response, queued, added. repeat split; assumption.
Defined.

(** ** authorizer.py *)

(** X13.  The authorizer never raises and always answers with a policy for
    the [methodArn] of the event.  The policy says Allow only when the query
    string carried a non-empty token, the user pool is configured, the ARN of
    the function has a region field, and the verification of that token
    against the pool's JWKS URL and issuer returned claims with a [sub]; the
    principal is then that [sub].  In every other case the policy says Deny
    for the principal ["user"]. *)
Theorem authorizer_allows_only_verified_tokens :
  forall (w : Authorizer.world) (ev : Authorizer.authorizer_event)
         (context : Authorizer.lambda_context),
    exists principal effect,
      snd (Authorizer.lambda_handler w ev context) =
        Authorizer.generate_policy principal effect (Authorizer.methodArn ev) /\
      ((effect = "Deny" /\ principal = JStr "user") \/
       (effect = "Allow" /\
        exists token user_pool_id region decoded_token,
          py_get (Authorizer.query ev) "token" JNull = Ok token /\
          truthy token = true /\
          Authorizer.environ w "USER_POOL_ID" = Some user_pool_id /\
          nth_error
            (split_on ":"%char (Authorizer.invoked_function_arn context)) 3 =
            Some region /\
          Authorizer.verify w (Authorizer.jwks_url region user_pool_id) token
            (Authorizer.issuer region user_pool_id) =
            Authorizer.Decoded decoded_token /\
          py_getitem decoded_token "sub" = Ok principal)).
Proof.
  intros w ev context.
  unfold Authorizer.lambda_handler, Authorizer.try_block.
  destruct (py_get (Authorizer.query ev) "token" JNull) as [token|e] eqn:Htoken.
  2:{ exists (JStr "user"), "Deny". split; [reflexivity | now left]. }
  destruct (truthy token) eqn:Htruthy; cbn [negb].
  2:{ exists (JStr "user"), "Deny". split; [reflexivity | now left]. }
  destruct (Authorizer.environ w "USER_POOL_ID") as [user_pool_id|] eqn:Hpool.
  2:{ exists (JStr "user"), "Deny". split; [reflexivity | now left]. }
  destruct (nth_error (split_on ":"%char
                         (Authorizer.invoked_function_arn context)) 3)
    as [region|] eqn:Hregion.
  2:{ exists (JStr "user"), "Deny". split; [reflexivity | now left]. }
  destruct (Authorizer.verify w (Authorizer.jwks_url region user_pool_id) token
              (Authorizer.issuer region user_pool_id))
    as [decoded_token|f] eqn:Hverify.
  2:{ exists (JStr "user"), "Deny".
      destruct f; (split; [reflexivity | now left]). }
  destruct (py_getitem decoded_token "sub") as [sub|e] eqn:Hsub.
  2:{ exists (JStr "user"), "Deny". split; [reflexivity | now left]. }
  exists sub, "Allow". split; [reflexivity|]. right. split; [reflexivity|].
  exists token, user_pool_id, region, decoded_token. now repeat split.
Qed.

Lemma split_on_prefix (sep : Ascii.ascii) (s : string) :
  forall rest : string,
    free_of sep s = true ->
    split_on sep (s ++ String sep rest) = s :: split_on sep rest.
Proof.
  induction s as [|c s IH]; intros rest Hfree; cbn [String.append split_on].
  - now rewrite Ascii.eqb_refl.
  - cbn [free_of] in Hfree. apply andb_true_iff in Hfree as [Hc Hs].
    apply negb_true_iff in Hc. rewrite Hc. now rewrite (IH rest Hs).
Qed.

(** X14.  A connection whose query string carries a token is allowed when
    the verification succeeds: with the user pool configured and a function
    ARN of the form [a:b:c:region:...], the token is verified against the
    Cognito JWKS URL and issuer of that region and pool, and when the
    verification returns claims with a [sub] the authorizer logs the success
    and returns the Allow policy for that [sub] and the [methodArn]. *)
Theorem authorizer_allows_verified_token :
  forall (w : Authorizer.world) (ev : Authorizer.authorizer_event)
         (context : Authorizer.lambda_context)
         (token decoded_token sub : json)
         (user_pool_id a b c region rest : string),
    py_get (Authorizer.query ev) "token" JNull = Ok token ->
    truthy token = true ->
    Authorizer.environ w "USER_POOL_ID" = Some user_pool_id ->
    Authorizer.invoked_function_arn context =
      a ++ ":" ++ b ++ ":" ++ c ++ ":" ++ region ++ ":" ++ rest ->
    free_of ":"%char a = true ->
    free_of ":"%char b = true ->
    free_of ":"%char c = true ->
    free_of ":"%char region = true ->
    Authorizer.verify w
      ("https://cognito-idp." ++ region ++ ".amazonaws.com/" ++ user_pool_id ++
       "/.well-known/jwks.json")
      token
      ("https://cognito-idp." ++ region ++ ".amazonaws.com/" ++ user_pool_id) =
      Authorizer.Decoded decoded_token ->
    py_getitem decoded_token "sub" = Ok sub ->
    Authorizer.lambda_handler w ev context =
    ([Authorizer.AuthorizationSuccessful sub],
     Authorizer.generate_policy sub "Allow" (Authorizer.methodArn ev)) /\
    policy_effect (Authorizer.generate_policy sub "Allow" (Authorizer.methodArn ev)) =
      Some (JStr "Allow") /\
    policy_resource (Authorizer.generate_policy sub "Allow" (Authorizer.methodArn ev)) =
      Some (JStr (Authorizer.methodArn ev)).
Proof.
  intros w ev context token decoded_token sub user_pool_id a b c region rest
         Htoken Htruthy Hpool Harn Ha Hb Hc Hregion Hverify Hsub.
  split; [|split; reflexivity].
  unfold Authorizer.lambda_handler, Authorizer.try_block.
  rewrite Htoken, Htruthy, Hpool, Harn. cbn [negb].
  change (a ++ ":" ++ b ++ ":" ++ c ++ ":" ++ region ++ ":" ++ rest)
    with (a ++ String ":" (b ++ String ":" (c ++ String ":"
            (region ++ String ":" rest)))).
  rewrite !split_on_prefix by assumption.
  cbn [nth_error].
  unfold Authorizer.jwks_url, Authorizer.issuer.
  now rewrite Hverify, Hsub.
Qed.

Lemma authorizer_allows_verified_token_witness :
  Authorizer.lambda_handler
    (sample_authorizer "good-token" (JObj [("sub", JStr "user-42")]))
    (connect_event (Some (JObj [("token", JStr "good-token")])))
    authorizer_context =
  ([Authorizer.AuthorizationSuccessful (JStr "user-42")],
   Authorizer.generate_policy (JStr "user-42") "Allow"
     "arn:aws:execute-api:us-east-1:123456789012:abcdef/prod/GET/$connect").
Proof.
  apply (authorizer_allows_verified_token
           (sample_authorizer "good-token" (JObj [("sub", JStr "user-42")]))
           (connect_event (Some (JObj [("token", JStr "good-token")])))
           authorizer_context
           (JStr "good-token") (JObj [("sub", JStr "user-42")]) (JStr "user-42")
           "us-east-1_AbCdEfGhI" "arn" "aws" "lambda" "us-east-1"
           "123456789012:function:authorizer");
    reflexivity.
Defined.

(** ** publish_token.py *)

Lemma substring_length_le (n : nat) :
  forall s : string, (String.length (String.substring 0 n s) <= n)%nat.
Proof.
  induction n as [|n IH]; intros [|c s]; cbn; try lia.
  specialize (IH s). lia.
Qed.

Lemma append_length (s t : string) :
  String.length (s ++ t) = (String.length s + String.length t)%nat.
Proof.
  induction s as [|c s IH]; cbn; [reflexivity|]. now rewrite IH.
Qed.

(** X15.  The resolver returns to AppSync the session id, the token and the
    completion flag it was given, unchanged whatever the length of the token,
    with the empty string and [False] for a missing argument, plus the
    timestamp, and no sequence number; only the log line shortens the token,
    to at most 50 characters followed by three dots, and leaves a token of at
    most 50 characters as it is. *)
Theorem resolver_returns_token_unchanged :
  forall (now : string) (ev : PublishToken.resolver_event),
    let arguments :=
      PublishToken.get_or (PublishToken.arguments ev)
        {| PublishToken.sessionId := None; PublishToken.token := None;
           PublishToken.isComplete := None |} in
    let token := PublishToken.get_or (PublishToken.token arguments) EmptyString in
    let result := snd (PublishToken.lambda_handler now ev) in
    field "token" result = Some (JStr token) /\
    field "sessionId" result =
      Some (JStr (PublishToken.get_or (PublishToken.sessionId arguments)
                    EmptyString)) /\
    field "isComplete" result =
      Some (JBool (PublishToken.get_or (PublishToken.isComplete arguments) false)) /\
    field "timestamp" result = Some (JStr now) /\
    field "sequence" result = None /\
    (forall session_id preview,
       In (PublishToken.PublishingToken session_id preview)
          (fst (PublishToken.lambda_handler now ev)) ->
       (String.length preview <= 53)%nat /\
       ((String.length token <= 50)%nat -> preview = token)).
Proof.
  intros now ev arguments token result.
  repeat (split; [reflexivity|]).
  intros session_id preview Hin.
  unfold PublishToken.lambda_handler in Hin. cbn [fst] in Hin.
  fold arguments in Hin. fold token in Hin.
  destruct (PublishToken.get_or (PublishToken.isComplete arguments) false).
  - destruct Hin as [Hin|[]]. discriminate Hin.
  - destruct Hin as [Hin|[]]. injection Hin as _ <-.
    unfold PublishToken.token_preview.
    destruct (50 <? String.length token)%nat eqn:Hlong.
    + apply Nat.ltb_lt in Hlong. split; [|lia].
      rewrite append_length. cbn [String.length].
      pose proof (substring_length_le 50 token). lia.
    + apply Nat.ltb_ge in Hlong. split; [lia | reflexivity].
Qed.

Lemma resolver_returns_token_unchanged_witness :
  (String.length "Hello" <= 53)%nat /\ "Hello" = "Hello".
Proof.
  destruct (resolver_returns_token_unchanged "2024-01-01T00:00:00"
              {| PublishToken.arguments := Some
                   {| PublishToken.sessionId := Some "s-1";
                      PublishToken.token := Some "Hello";
                      PublishToken.isComplete := Some false |} |})
    as (_ & _ & _ & _ & _ & Hlog).
  destruct (Hlog "s-1" "Hello" (or_introl eq_refl)) as [Hlen Hsame].
  split; [exact Hlen|]. apply Hsame. cbn. lia.
Defined.

(** ** stream.py: the Bedrock invocation *)

Lemma ws_notify_error_invocations (w : Stream.world) (connection_id : string)
    (context : Stream.lambda_context) (e : exn) (st : Stream.state) :
  Stream.invocations (fst (Stream.notify_error w connection_id context e st)) =
  Stream.invocations st.
Proof.
  rewrite ws_notify_error. cbv zeta. cbn [fst].
  destruct (Stream.post_to_connection w (List.length (Stream.sends st)));
    reflexivity.
Qed.

(** X16.  A WebSocket request that is read invokes Bedrock exactly once,
    whatever happens afterwards, with the prompt of the body and with the
    [max_tokens] of its options exactly as given, of whatever JSON type, or
    1000 when the body has no options or the options no [max_tokens]. *)
Theorem websocket_invokes_once_as_requested :
  forall (w : Stream.world) (ev : Stream.ws_event)
         (context : Stream.lambda_context) (prompt max_tokens : json),
    ws_request ev prompt max_tokens ->
    Stream.invocations
      (fst (Stream.lambda_handler w ev context Stream.initial)) =
      [(prompt, max_tokens)] /\
    (forall fields options,
       Stream.event_body ev = Parses (JObj fields) ->
       py_get (JObj fields) "options" (JObj []) = Ok (JObj options) ->
       max_tokens =
       match lookup "max_tokens" options with
       | Some value => value
       | None => JNum 1000
       end).
Proof.
  intros w ev context prompt max_tokens Hreq. split.
  - rewrite (ws_handler_relays w ev context prompt max_tokens _ Hreq).
    cbn [fst]. rewrite ws_try_block. cbv zeta.
    set (connection_id := Stream.connectionId (Stream.requestContext ev)).
    destruct (Stream.invoke_model_with_response_stream w max_tokens prompt)
      as [response|e].
    + destruct (ws_loop_shape w connection_id (events response)
                  (ending response) 0
                  {| Stream.invocations :=
                       Stream.invocations Stream.initial ++ [(prompt, max_tokens)];
                     Stream.sends := Stream.sends Stream.initial;
                     Stream.log := Stream.log Stream.initial |})
        as (tokens & entries & r & -> & _ & Hr).
      destruct Hr as [-> | [e ->]].
      * rewrite ws_send_completion. cbv zeta.
        destruct (Stream.post_to_connection w _) as [e|]; [|reflexivity].
        destruct (is_gone e); [reflexivity|].
        now rewrite ws_notify_error_invocations.
      * now rewrite ws_notify_error_invocations.
    + now rewrite ws_notify_error_invocations.
  - intros fields options Hbody Hoptions.
    destruct Hreq as (body & Hbody' & Hread).
    rewrite Hbody in Hbody'. injection Hbody' as <-.
    unfold Stream.read_request in Hread.
    destruct (py_get (JObj fields) "prompt" (JStr default_prompt)) as [p|];
      [|discriminate].
    cbn [res_bind] in Hread. rewrite Hoptions in Hread.
    cbn [res_bind py_get] in Hread.
    destruct (lookup "max_tokens" options) as [value|];
      cbn [res_bind] in Hread;
      destruct (py_slice p) as [[]|]; try discriminate;
      now injection Hread as _ <-.
Qed.

Lemma websocket_invokes_once_as_requested_witness :
  Stream.invocations
    (fst (Stream.lambda_handler hello_stream
            (sample_event
               (Some (Parses (JObj [("prompt", JStr "What is AWS Lambda?");
                                    ("options", JObj [("max_tokens", JNum 256)])]))))
            sample_context Stream.initial)) =
    [(JStr "What is AWS Lambda?", JNum 256)].
Proof.
  apply (websocket_invokes_once_as_requested hello_stream _ sample_context
           (JStr "What is AWS Lambda?") (JNum 256)).
  eexists. split; reflexivity.
Defined.
